(** * Announcement endpoints of the school management API

    A shallow embedding of [src/backend/routers/announcements.py]:
    the five request handlers, the document store they talk to, and the
    Python and BSON notions they lean on (truthiness, [str], string
    comparison, [datetime.strptime] with the format [%Y-%m-%d]).

    Strings are byte strings ([string] of the standard library) read as
    UTF-8; their lexicographic order on bytes coincides with Python's
    order on code points and with MongoDB's binary string comparison.
    The date parser works on the code points they encode. *)

From stdpp Require Import gmap strings list fin_maps sorting.
From Stdlib Require Import ZArith Ascii String.

Local Open Scope string_scope.
Local Open Scope list_scope.
Local Open Scope Z_scope.

(** ** Values held by documents *)

(** A [bson.ObjectId] is twelve bytes; it is kept here as its canonical
    rendering, 24 lower-case hexadecimal digits. *)
Inductive ObjectId := Oid (hex : string).

Inductive value :=
| VNone
| VBool (b : bool)
| VStr (s : string)
| VOid (o : ObjectId).

#[global] Instance ObjectId_eq_dec : EqDecision ObjectId.
Proof. solve_decision. Defined.

#[global] Instance value_eq_dec : EqDecision value.
Proof. solve_decision. Defined.

#[global] Instance value_inhabited : Inhabited value := populate VNone.

(** A document (a Python [dict] with string keys, a BSON document). *)
Abbreviation doc := (gmap string value).

(** [d.get(k)] and [d.get(k, default)]. *)
Definition dict_get (d : doc) (k : string) : value := default VNone (d !! k).
Definition dict_get_or (d : doc) (k : string) (dflt : value) : value :=
  default dflt (d !! k).

(** Python truthiness, as used by [if x] and [not x]. *)
Definition truthy (v : value) : bool :=
  match v with
  | VNone => false
  | VBool b => b
  | VStr s => negb (String.eqb s "")
  | VOid _ => true
  end.

(** [str(v)]. *)
Definition py_str (v : value) : string :=
  match v with
  | VNone => "None"
  | VBool true => "True"
  | VBool false => "False"
  | VStr s => s
  | VOid (Oid h) => h
  end.

Definition opt_str (o : option string) : value :=
  match o with Some s => VStr s | None => VNone end.
Definition opt_bool (o : option bool) : value :=
  match o with Some b => VBool b | None => VNone end.

(** ** What a handler produces *)

Inductive outcome (A : Type) :=
| Return (a : A)
| HTTPException (status_code : Z) (detail : string)
| Uncaught (exn : string).
Arguments Return {A} a.
Arguments HTTPException {A} status_code detail.
Arguments Uncaught {A} exn.

#[global] Instance outcome_eq_dec {A} `{EqDecision A} : EqDecision (outcome A).
Proof. solve_decision. Defined.

Definition bind {A B} (m : outcome A) (k : A -> outcome B) : outcome B :=
  match m with
  | Return a => k a
  | HTTPException c d => HTTPException c d
  | Uncaught e => Uncaught e
  end.

Notation "'let*' x := m 'in' k" := (bind m (fun x => k))
  (at level 10, x name, m at level 100, k at level 200).

(** ** [bson.ObjectId(s)] for a [str] argument *)

Definition in_range (c lo hi : ascii) : bool :=
  (N_of_ascii lo <=? N_of_ascii c)%N && (N_of_ascii c <=? N_of_ascii hi)%N.

Definition is_digit (c : ascii) : bool := in_range c "0" "9".

Definition is_hex (c : ascii) : bool :=
  is_digit c || in_range c "a" "f" || in_range c "A" "F".

Definition hex_lower (c : ascii) : ascii :=
  if in_range c "A" "F" then ascii_of_N (N_of_ascii c + 32) else c.

Fixpoint string_map (f : ascii -> ascii) (s : string) : string :=
  match s with
  | EmptyString => EmptyString
  | String c r => String (f c) (string_map f r)
  end.

Fixpoint string_forallb (f : ascii -> bool) (s : string) : bool :=
  match s with
  | EmptyString => true
  | String c r => f c && string_forallb f r
  end.

(** [None] stands for [bson.errors.InvalidId].  An identifier is valid
    when it consists of 24 hexadecimal digits (white space, which
    [bytes.fromhex] would skip, is taken as invalid). *)
Definition ObjectId_of_str (s : string) : option ObjectId :=
  if (Nat.eqb (String.length s) 24) && string_forallb is_hex s
  then Some (Oid (string_map hex_lower s))
  else None.

(** ** [datetime.strptime(s, "%Y-%m-%d")]

    CPython compiles the format to the regular expression
    [(?P<Y>\d\d\d\d)-(?P<m>1[0-2]|0[1-9]|[1-9])-(?P<d>3[0-1]|[1-2]\d|0[1-9]|[1-9]| [1-9])],
    matches it at the start of the string, rejects unconverted trailing
    data, and then builds the date, which rejects year 0 and days beyond
    the month's length.  The pattern works on the code points of the
    string: [\d] takes any Unicode decimal digit, the ranges such as
    [[1-9]] take ASCII digits only, and [int] reads a decimal digit of
    any script by its value. *)

(** The code points of a UTF-8 byte string; [None] for bytes that are
    not the encoding of any [str]. *)
Definition continuation (c : ascii) : bool :=
  (128 <=? N_of_ascii c)%N && (N_of_ascii c <=? 191)%N.

Definition low_bits (c : ascii) : N := (N_of_ascii c mod 64)%N.

Fixpoint utf8_decode (l : list ascii) : option (list N) :=
  match l with
  | [] => Some []
  | b0 :: r =>
      let n0 := N_of_ascii b0 in
      if (n0 <? 128)%N then
        match utf8_decode r with Some t => Some (n0 :: t) | None => None end
      else if (194 <=? n0)%N && (n0 <=? 223)%N then
        match r with
        | b1 :: r1 =>
            if continuation b1 then
              match utf8_decode r1 with
              | Some t => Some (((n0 - 192) * 64 + low_bits b1)%N :: t)
              | None => None
              end
            else None
        | _ => None
        end
      else if (224 <=? n0)%N && (n0 <=? 239)%N then
        match r with
        | b1 :: b2 :: r2 =>
            let cp := ((n0 - 224) * 4096 + low_bits b1 * 64 + low_bits b2)%N in
            if continuation b1 && continuation b2 && (2048 <=? cp)%N
               && negb ((55296 <=? cp)%N && (cp <=? 57343)%N) then
              match utf8_decode r2 with
              | Some t => Some (cp :: t)
              | None => None
              end
            else None
        | _ => None
        end
      else if (240 <=? n0)%N && (n0 <=? 244)%N then
        match r with
        | b1 :: b2 :: b3 :: r3 =>
            let cp := ((n0 - 240) * 262144 + low_bits b1 * 4096
                       + low_bits b2 * 64 + low_bits b3)%N in
            if continuation b1 && continuation b2 && continuation b3
               && (65536 <=? cp)%N && (cp <=? 1114111)%N then
              match utf8_decode r3 with
              | Some t => Some (cp :: t)
              | None => None
              end
            else None
        | _ => None
        end
      else None
  end.

(** The code points of the digit zero of every run of decimal digits
    (general category Nd) in Unicode 14.0, the version of CPython 3.11;
    each is followed by the digits one to nine. *)
Definition decimal_zeros : list N :=
  [
    48; 1632; 1776; 1984; 2406; 2534; 2662; 2790;
    2918; 3046; 3174; 3302; 3430; 3558; 3664; 3792;
    3872; 4160; 4240; 6112; 6160; 6470; 6608; 6784;
    6800; 6992; 7088; 7232; 7248; 42528; 43216; 43264;
    43472; 43504; 43600; 44016; 65296; 66720; 68912; 69734;
    69872; 69942; 70096; 70384; 70736; 70864; 71248; 71360;
    71472; 71904; 72016; 72784; 73040; 73120; 92768; 92864;
    93008; 120782; 120792; 120802; 120812; 120822; 123200; 123632;
    125264; 130032
  ]%N.

Fixpoint first_some {A B} (f : A -> option B) (l : list A) : option B :=
  match l with
  | [] => None
  | x :: r => match f x with Some y => Some y | None => first_some f r end
  end.

(** The value of a decimal digit of any script, as [int] reads it. *)
Definition decimal_digit (cp : N) : option Z :=
  first_some
    (fun zero => if (zero <=? cp)%N && (cp <? zero + 10)%N
                 then Some (Z.of_N (cp - zero)) else None)
    decimal_zeros.

(** [\d] *)
Definition is_decimal (cp : N) : bool := bool_decide (is_Some (decimal_digit cp)).

Definition decimal_val (cp : N) : Z := default 0 (decimal_digit cp).

(** A range of ASCII characters such as [[1-9]]. *)
Definition between (lo hi : ascii) (cp : N) : bool :=
  (N_of_ascii lo <=? cp)%N && (cp <=? N_of_ascii hi)%N.

Definition alt2 (p1 p2 : N -> bool) (val : N -> N -> Z)
    (l : list N) : list (Z * list N) :=
  match l with
  | a :: b :: r => if p1 a && p2 b then [(val a b, r)] else []
  | _ => []
  end.

Definition alt1 (p : N -> bool) (l : list N) : list (Z * list N) :=
  match l with
  | a :: r => if p a then [(decimal_val a, r)] else []
  | _ => []
  end.

Definition two_digits (a b : N) : Z := 10 * decimal_val a + decimal_val b.

(** The alternatives of [%m], in the order the regular expression tries them. *)
Definition month_alts (l : list N) : list (Z * list N) :=
  alt2 (between "1" "1") (between "0" "2") two_digits l
  ++ alt2 (between "0" "0") (between "1" "9") two_digits l
  ++ alt1 (between "1" "9") l.

(** The alternatives of [%d]. *)
Definition day_alts (l : list N) : list (Z * list N) :=
  alt2 (between "3" "3") (between "0" "1") two_digits l
  ++ alt2 (between "1" "2") is_decimal two_digits l
  ++ alt2 (between "0" "0") (between "1" "9") two_digits l
  ++ alt1 (between "1" "9") l
  ++ alt2 (between " " " ") (between "1" "9") (fun _ b => decimal_val b) l.

(** After a month alternative: the literal ["-"], then the first day
    alternative that matches. *)
Definition after_month (c : Z * list N) : option (Z * Z * list N) :=
  match c with
  | (m, sep :: r) =>
      if between "-" "-" sep
      then match day_alts r with
           | (d, rest) :: _ => Some (m, d, rest)
           | [] => None
           end
      else None
  | (_, []) => None
  end.

Definition is_leap (y : Z) : bool :=
  (y mod 4 =? 0) && (negb (y mod 100 =? 0) || (y mod 400 =? 0)).

Definition days_in_month (y m : Z) : Z :=
  if m =? 2 then (if is_leap y then 29 else 28)
  else if (m =? 4) || (m =? 6) || (m =? 9) || (m =? 11) then 30
  else 31.

(** The pattern on the code points of the string, then the calendar. *)
Definition strptime_code_points (l : list N) : option (Z * Z * Z) :=
  match l with
  | y1 :: y2 :: y3 :: y4 :: sep :: r =>
      if is_decimal y1 && is_decimal y2 && is_decimal y3 && is_decimal y4
         && between "-" "-" sep
      then
        let y := 1000 * decimal_val y1 + 100 * decimal_val y2
                 + 10 * decimal_val y3 + decimal_val y4 in
        match first_some after_month (month_alts r) with
        | Some (m, d, []) =>
            if (1 <=? y) && (d <=? days_in_month y m) then Some (y, m, d)
            else None
        | _ => None
        end
      else None
  | _ => None
  end.

(** [None] stands for [ValueError]. *)
Definition strptime (s : string) : option (Z * Z * Z) :=
  match utf8_decode (list_ascii_of_string s) with
  | Some l => strptime_code_points l
  | None => None
  end.

(** ** The document store

    Modelled from the spec: the module [database] that binds
    [announcements_collection] and [teachers_collection] is not part of
    the sources at hand.  Following the spec's "Announcement Store
    supporting insert, filtered find with sort, filtered partial update,
    and filtered delete, each returning a success/failure signal and, for
    insert, a generated identifier", a collection is the list of its
    documents in natural (insertion) order. *)

Record Database := {
  teachers_collection : list doc;
  announcements_collection : list doc
}.

#[global] Instance Database_eq_dec : EqDecision Database.
Proof. solve_decision. Defined.

Definition with_announcements (db : Database) (c : list doc) : Database :=
  {| teachers_collection := teachers_collection db;
     announcements_collection := c |}.

(** The filter [{"_id": v}]. *)
Definition id_is (v : value) (d : doc) : bool :=
  bool_decide (d !! "_id" = Some v).

Definition find (query : doc -> bool) (c : list doc) : list doc :=
  List.filter query c.

Definition find_one (query : doc -> bool) (c : list doc) : option doc :=
  List.find query c.

Record InsertOneResult := { inserted_id : value }.
Record UpdateResult := { matched_count : Z; modified_count : Z }.
Record DeleteResult := { deleted_count : Z }.

(** [insert_one] on a document without ["_id"]: the driver generates an
    identifier ([new_id], chosen outside the program) and the server
    refuses one that is already taken. *)
Definition insert_one (document : doc) (new_id : ObjectId) (c : list doc)
    : outcome (list doc * InsertOneResult) :=
  if existsb (id_is (VOid new_id)) c
  then Uncaught "DuplicateKeyError"
  else Return (c ++ [<["_id" := VOid new_id]> document],
               {| inserted_id := VOid new_id |}).

(** [update_one(query, {"$set": fields})]: the first matching document
    takes the new fields; it counts as modified only if it changed. *)
Fixpoint update_one (query : doc -> bool) (fields : doc) (c : list doc)
    : list doc * UpdateResult :=
  match c with
  | [] => ([], {| matched_count := 0; modified_count := 0 |})
  | d :: r =>
      if query d then
        if decide (fields ∪ d = d)
        then (d :: r, {| matched_count := 1; modified_count := 0 |})
        else ((fields ∪ d) :: r, {| matched_count := 1; modified_count := 1 |})
      else
        let '(r', res) := update_one query fields r in (d :: r', res)
  end.

(** [delete_one(query)]: the first matching document is removed. *)
Fixpoint delete_one (query : doc -> bool) (c : list doc)
    : list doc * DeleteResult :=
  match c with
  | [] => ([], {| deleted_count := 0 |})
  | d :: r =>
      if query d then (r, {| deleted_count := 1 |})
      else let '(r', res) := delete_one query r in (d :: r', res)
  end.

(** ** Sorting *)

(** A stable sort: an element goes in front of the first one that is not
    smaller than it.  Among stable sorts the result does not depend on
    the algorithm. *)
Section stable_sort.
Context {A : Type} (lt : A -> A -> bool).

Fixpoint insert_sorted (x : A) (l : list A) : list A :=
  match l with
  | [] => [x]
  | y :: r => if lt y x then y :: insert_sorted x r else x :: y :: r
  end.

Definition stable_sort (l : list A) : list A := foldr insert_sorted [] l.

(** [a <= b], read as "not [b < a]". *)
Definition not_after (a b : A) : Prop := lt b a = false.
End stable_sort.

(** The BSON comparison order on the values at hand: null (also a missing
    field), then strings, then object ids, then booleans. *)
Definition bson_type_rank (v : value) : nat :=
  match v with VNone => 0 | VStr _ => 1 | VOid _ => 2 | VBool _ => 3 end%nat.

Definition bson_ltb (a b : value) : bool :=
  match a, b with
  | VStr x, VStr y => String.ltb x y
  | VOid (Oid x), VOid (Oid y) => String.ltb x y
  | VBool x, VBool y => negb x && y
  | _, _ => (bson_type_rank a <? bson_type_rank b)%nat
  end.

(** [c.find().sort(field, -1)].  MongoDB leaves the order of documents
    with equal sort keys open; the model keeps them in natural order. *)
Definition find_sort_desc (field : string) (c : list doc) : list doc :=
  stable_sort (fun x y => bson_ltb (dict_get y field) (dict_get x field)) c.

(** Python's [a < b]; [None] stands for [TypeError]. *)
Definition py_lt (a b : value) : option bool :=
  match a, b with
  | VStr x, VStr y => Some (String.ltb x y)
  | VBool x, VBool y => Some (negb x && y)
  | VOid (Oid x), VOid (Oid y) => Some (String.ltb x y)
  | _, _ => None
  end.

(** [<] on the key tuples [(rank, created_at)]: the first components
    that differ decide. *)
Definition key_lt (k1 k2 : nat * value) : option bool :=
  if decide (k1.1 = k2.1) then
    if decide (k1.2 = k2.2) then Some false else py_lt k1.2 k2.2
  else Some (k1.1 <? k2.1)%nat.

Definition key_ltb (k1 k2 : nat * value) : bool :=
  match key_lt k1 k2 with Some b => b | None => false end.

Definition comparable (keys : list (nat * value)) : bool :=
  forallb (fun k1 => forallb (fun k2 => bool_decide (is_Some (key_lt k1 k2))) keys) keys.

(** [l.sort(key=key)].  When two keys of the list cannot be compared,
    CPython raises [TypeError] if its merge sort happens to compare them;
    the model raises for every such list. *)
Definition list_sort (key : doc -> nat * value) (l : list doc) : outcome (list doc) :=
  if comparable (map key l)
  then Return (stable_sort (fun x y => key_ltb (key x) (key y)) l)
  else Uncaught "TypeError".

(** ** The request bodies (pydantic models, after parsing) *)

Module AnnouncementCreate.
(** [priority] and [is_active] come with the defaults ["medium"] and
    [True] when the request leaves them out; an explicit [null] stays
    [None]. *)
Record t := {
  title : string;
  message : string;
  priority : option string;
  start_date : option string;
  end_date : string;
  is_active : option bool
}.
End AnnouncementCreate.

Module AnnouncementUpdate.
(** Each field is unset ([None]), set to [null] ([Some None]) or set to
    a value. *)
Record t := {
  title : option (option string);
  message : option (option string);
  priority : option (option string);
  start_date : option (option string);
  end_date : option (option string);
  is_active : option (option bool)
}.
End AnnouncementUpdate.

Definition item {A} (name : string) (inj : option A -> value)
    (f : option (option A)) : list (string * value) :=
  match f with Some v => [(name, inj v)] | None => [] end.

(** [announcement_data.dict(exclude_unset=True).items()], in field order. *)
Definition dict_exclude_unset (u : AnnouncementUpdate.t) : list (string * value) :=
  item "title" opt_str (AnnouncementUpdate.title u)
  ++ item "message" opt_str (AnnouncementUpdate.message u)
  ++ item "priority" opt_str (AnnouncementUpdate.priority u)
  ++ item "start_date" opt_str (AnnouncementUpdate.start_date u)
  ++ item "end_date" opt_str (AnnouncementUpdate.end_date u)
  ++ item "is_active" opt_bool (AnnouncementUpdate.is_active u).

(** ** The handlers *)

(** The truth value of what [find_one] gives back: [None] and the empty
    dictionary are false. *)
Definition found (o : option doc) : bool :=
  match o with
  | Some d => negb (bool_decide (d = ∅))
  | None => false
  end.

(** [announcement["_id"] = str(announcement["_id"])] *)
Definition set_id_str (announcement : doc) : outcome doc :=
  match announcement !! "_id" with
  | Some v => Return (<["_id" := VStr (py_str v)]> announcement)
  | None => Uncaught "KeyError"
  end.

(** The query of [get_active_announcements]:
    [{"is_active": True, "end_date": {"$gte": current_date}}]. *)
Definition active_query (current_date : string) (d : doc) : bool :=
  bool_decide (d !! "is_active" = Some (VBool true))
  && match d !! "end_date" with
     | Some (VStr e) => String.leb current_date e
     | _ => false
     end.

(** [v <= s] for a [str] [s]. *)
Definition py_le_str (v : value) (s : string) : option bool :=
  match v with
  | VStr x => Some (String.leb x s)
  | _ => None
  end.

Fixpoint collect_active (current_date : string) (cursor announcements : list doc)
    : outcome (list doc) :=
  match cursor with
  | [] => Return announcements
  | announcement :: rest =>
      if truthy (dict_get announcement "start_date") then
        match py_le_str (dict_get announcement "start_date") current_date with
        | Some true =>
            let* a := set_id_str announcement in
            collect_active current_date rest (announcements ++ [a])
        | Some false => collect_active current_date rest announcements
        | None => Uncaught "TypeError"
        end
      else
        let* a := set_id_str announcement in
        collect_active current_date rest (announcements ++ [a])
  end.

(** [priority_order.get(k, dflt)] with
    [priority_order = {"high": 0, "medium": 1, "low": 2}]. *)
Definition priority_order_get (k : value) (dflt : nat) : nat :=
  match k with
  | VStr s =>
      if String.eqb s "high" then 0
      else if String.eqb s "medium" then 1
      else if String.eqb s "low" then 2
      else dflt
  | _ => dflt
  end%nat.

Definition sort_key (x : doc) : nat * value :=
  (priority_order_get (dict_get_or x "priority" (VStr "medium")) 1,
   dict_get_or x "created_at" (VStr "")).

(** [current_date] is [datetime.now().strftime("%Y-%m-%d")]. *)
Definition get_active_announcements (current_date : string) (db : Database)
    : outcome (list doc) :=
  let query := active_query current_date in
  let* announcements :=
    collect_active current_date (find query (announcements_collection db)) [] in
  list_sort sort_key announcements.

Fixpoint collect_all (cursor announcements : list doc) : outcome (list doc) :=
  match cursor with
  | [] => Return announcements
  | announcement :: rest =>
      let* a := set_id_str announcement in
      collect_all rest (announcements ++ [a])
  end.

Definition get_all_announcements (teacher_username : option string) (db : Database)
    : outcome (list doc) :=
  if negb (truthy (opt_str teacher_username)) then
    HTTPException 401 "Authentication required for this action"
  else
    let teacher :=
      find_one (id_is (opt_str teacher_username)) (teachers_collection db) in
    if negb (found teacher) then HTTPException 401 "Invalid teacher credentials"
    else collect_all (find_sort_desc "created_at" (announcements_collection db)) [].

(** The two [strptime] calls of [create_announcement]; [false] stands for
    the [ValueError] caught there. *)
Definition dates_parse (announcement_data : AnnouncementCreate.t) : bool :=
  (if truthy (opt_str (AnnouncementCreate.start_date announcement_data))
   then bool_decide (is_Some (strptime
          (default "" (AnnouncementCreate.start_date announcement_data))))
   else true)
  && bool_decide (is_Some (strptime (AnnouncementCreate.end_date announcement_data))).

(** [now] is [datetime.now().isoformat()], [new_id] the identifier the
    driver generates for the insert. *)
Definition create_announcement (announcement_data : AnnouncementCreate.t)
    (teacher_username : string) (now : string) (new_id : ObjectId)
    (db : Database) : Database * outcome doc :=
  let teacher :=
    find_one (id_is (VStr teacher_username)) (teachers_collection db) in
  if negb (found teacher) then (db, HTTPException 401 "Invalid teacher credentials")
  else if negb (dates_parse announcement_data) then
    (db, HTTPException 400 "Invalid date format. Use YYYY-MM-DD")
  else
    let announcement_doc : doc :=
      {[ "title" := VStr (AnnouncementCreate.title announcement_data);
         "message" := VStr (AnnouncementCreate.message announcement_data);
         "priority" := opt_str (AnnouncementCreate.priority announcement_data);
         "start_date" := opt_str (AnnouncementCreate.start_date announcement_data);
         "end_date" := VStr (AnnouncementCreate.end_date announcement_data);
         "created_by" := VStr teacher_username;
         "created_at" := VStr now;
         "is_active" := opt_bool (AnnouncementCreate.is_active announcement_data) ]} in
    match insert_one announcement_doc new_id (announcements_collection db) with
    | Return (c, result) =>
        if negb (truthy (inserted_id result)) then
          (with_announcements db c,
           HTTPException 500 "Failed to create announcement")
        else
          (with_announcements db c,
           Return {[ "message" := VStr "Announcement created successfully";
                     "id" := VStr (py_str (inserted_id result)) ]})
    | HTTPException code detail => (db, HTTPException code detail)
    | Uncaught e => (db, Uncaught e)
    end.

(** The loop that fills [update_data]. *)
Fixpoint prepare_update (items : list (string * value)) (update_data : doc)
    : outcome doc :=
  match items with
  | [] => Return update_data
  | (field, v) :: rest =>
      if bool_decide (v = VNone) then prepare_update rest update_data
      else if (String.eqb field "start_date" || String.eqb field "end_date")
              && truthy v then
        match v with
        | VStr s =>
            match strptime s with
            | Some _ => prepare_update rest (<[field := v]> update_data)
            | None =>
                HTTPException 400
                  ("Invalid " +:+ field +:+ " format. Use YYYY-MM-DD")
            end
        | _ => Uncaught "TypeError"
        end
      else prepare_update rest (<[field := v]> update_data)
  end.

Definition update_announcement (announcement_id : string)
    (announcement_data : AnnouncementUpdate.t) (teacher_username : string)
    (db : Database) : Database * outcome doc :=
  let teacher :=
    find_one (id_is (VStr teacher_username)) (teachers_collection db) in
  if negb (found teacher) then (db, HTTPException 401 "Invalid teacher credentials")
  else
    match ObjectId_of_str announcement_id with
    | None => (db, HTTPException 400 "Invalid announcement ID")
    | Some oid =>
        let announcement :=
          find_one (id_is (VOid oid)) (announcements_collection db) in
        if negb (found announcement) then
          (db, HTTPException 404 "Announcement not found")
        else
          match prepare_update (dict_exclude_unset announcement_data) ∅ with
          | Return update_data =>
              if bool_decide (update_data = ∅) then
                (db, HTTPException 400 "No valid fields to update")
              else
                let '(c, result) :=
                  update_one (id_is (VOid oid)) update_data
                    (announcements_collection db) in
                if modified_count result =? 0 then
                  (with_announcements db c,
                   HTTPException 500 "Failed to update announcement")
                else
                  (with_announcements db c,
                   Return {[ "message" := VStr "Announcement updated successfully" ]})
          | HTTPException code detail => (db, HTTPException code detail)
          | Uncaught e => (db, Uncaught e)
          end
    end.

Definition delete_announcement (announcement_id : string)
    (teacher_username : string) (db : Database) : Database * outcome doc :=
  let teacher :=
    find_one (id_is (VStr teacher_username)) (teachers_collection db) in
  if negb (found teacher) then (db, HTTPException 401 "Invalid teacher credentials")
  else
    match ObjectId_of_str announcement_id with
    | None => (db, HTTPException 400 "Invalid announcement ID")
    | Some oid =>
        let '(c, result) :=
          delete_one (id_is (VOid oid)) (announcements_collection db) in
        if deleted_count result =? 0 then
          (with_announcements db c, HTTPException 404 "Announcement not found")
        else
          (with_announcements db c,
           Return {[ "message" := VStr "Announcement deleted successfully" ]})
    end.

(** ** Notions used to state the properties *)

(** The staff identifier resolves in the Staff Directory. *)
Definition staff_known (teacher_username : string) (db : Database) : bool :=
  existsb (id_is (VStr teacher_username)) (teachers_collection db).

(** The HTTP status a client sees; an uncaught exception is answered
    with 500 by the framework. *)
Definition status_of {A} (r : outcome A) : option Z :=
  match r with
  | Return _ => Some 200
  | HTTPException code _ => Some code
  | Uncaught _ => Some 500
  end.

(** No two documents share an ["_id"] (MongoDB's unique index). *)
Definition unique_ids (c : list doc) : Prop :=
  NoDup ((fun d => d !! "_id") <$> c).

(** *** For the listings *)

Definition str_or_none (o : option value) : bool :=
  match o with
  | None | Some VNone | Some (VStr _) => true
  | Some _ => false
  end.

Definition str_or_missing (o : option value) : bool :=
  match o with
  | None | Some (VStr _) => true
  | Some _ => false
  end.

(** The documents the listing handlers can process without a Python
    exception: an ["_id"] to render, a [start_date] that is missing,
    [null] or text, and a [created_at] that is missing or text.  Every
    document written by [create_announcement] is of this shape, and
    [update_announcement] keeps it so (see [listable_create],
    [listable_update] and [listable_delete] below). *)
Definition listable (d : doc) : bool :=
  bool_decide (is_Some (d !! "_id"))
  && str_or_none (d !! "start_date")
  && str_or_missing (d !! "created_at").

(** A record as the listings return it: the identifier is rendered as a
    plain string. *)
Definition rendered (d : doc) : doc :=
  <["_id" := VStr (py_str (dict_get d "_id"))]> d.

(** The selection the specification asks for: [is_active] is true,
    [end_date] is not before today, and [start_date] is absent or not
    after today (strings compared lexicographically). *)
Definition started (today : string) (d : doc) : bool :=
  match d !! "start_date" with
  | None | Some VNone => true
  | Some (VStr s) => String.leb s today
  | Some _ => false
  end.

Definition displayable (today : string) (d : doc) : bool :=
  bool_decide (d !! "is_active" = Some (VBool true))
  && match d !! "end_date" with
     | Some (VStr e) => String.leb today e
     | _ => false
     end
  && started today d.

(** The sort key the specification asks for: rank 0 for [high], 2 for
    [low], 1 for [medium] and for anything else; then [created_at]. *)
Definition priority_class (d : doc) : nat :=
  if bool_decide (d !! "priority" = Some (VStr "high")) then 0%nat
  else if bool_decide (d !! "priority" = Some (VStr "low")) then 2%nat
  else 1%nat.

Definition created_at_of (d : doc) : string :=
  match d !! "created_at" with
  | Some (VStr s) => s
  | _ => ""
  end.

Definition key_before (x y : doc) : Prop :=
  (priority_class x < priority_class y)%nat
  \/ (priority_class x = priority_class y
      /\ String.leb (created_at_of x) (created_at_of y) = true).

Definition doc_ltb (x y : doc) : bool :=
  (priority_class x <? priority_class y)%nat
  || ((priority_class x =? priority_class y)%nat
      && String.ltb (created_at_of x) (created_at_of y)).

(** *** For create *)

(** The document [create_announcement] hands to the store, and the
    document the store keeps for it. *)
Definition announcement_doc (a : AnnouncementCreate.t) (u now : string) : doc :=
  {[ "title" := VStr (AnnouncementCreate.title a);
     "message" := VStr (AnnouncementCreate.message a);
     "priority" := opt_str (AnnouncementCreate.priority a);
     "start_date" := opt_str (AnnouncementCreate.start_date a);
     "end_date" := VStr (AnnouncementCreate.end_date a);
     "created_by" := VStr u;
     "created_at" := VStr now;
     "is_active" := opt_bool (AnnouncementCreate.is_active a) ]}.

Definition stored_doc (a : AnnouncementCreate.t) (u now : string) (id : ObjectId) : doc :=
  <["_id" := VOid id]> (announcement_doc a u now).

(** *** For update *)

(** A field the update leaves alone: the payload does not set it, or
    sets it to [null]. *)
Definition skipped (data : AnnouncementUpdate.t) (f : string) : Prop :=
  Forall (fun p => p.1 = f -> p.2 = VNone) (dict_exclude_unset data).

(** No field is left to change: every field is skipped. *)
Definition nothing_supplied (data : AnnouncementUpdate.t) : Prop :=
  Forall (fun p => p.2 = VNone) (dict_exclude_unset data).

(** The target identifier is well-formed and matches a record. *)
Definition target_exists (id : string) (db : Database) : bool :=
  match ObjectId_of_str id with
  | Some oid => existsb (id_is (VOid oid)) (announcements_collection db)
  | None => false
  end.

Definition date_field (f : string) : Prop := f = "start_date" \/ f = "end_date".

(** *** Invariants on stored records *)

Definition valid_date_value (v : value) : bool :=
  match v with
  | VStr s => bool_decide (is_Some (strptime s))
  | _ => false
  end.

(** The date invariant as the specification words it: [end_date] is
    present and a valid date string; [start_date], if present and not
    [null], is a valid date string. *)
Definition end_date_valid (d : doc) : bool :=
  match d !! "end_date" with
  | Some v => valid_date_value v
  | None => false
  end.

Definition start_date_valid (d : doc) : bool :=
  match d !! "start_date" with
  | None | Some VNone => true
  | Some v => valid_date_value v
  end.

Definition dates_valid (d : doc) : bool := end_date_valid d && start_date_valid d.


(** The title invariant as the specification words it: [title] is
    non-empty text. *)
Definition title_nonempty (d : doc) : bool :=
  match d !! "title" with
  | Some (VStr s) => negb (String.eqb s "")
  | _ => false
  end.

(** What the handlers keep: [title] is text. *)
Definition title_text (d : doc) : bool :=
  match d !! "title" with
  | Some (VStr _) => true
  | _ => false
  end.

(** *** For the properties of how the handlers compose *)

(** The fields an update can write. *)
Definition mutable_fields : list string :=
  ["title"; "message"; "priority"; "start_date"; "end_date"; "is_active"].

(** The identifier of the document is an [ObjectId], as for every
    document that [create_announcement] stores. *)
Definition has_object_id (d : doc) : bool :=
  match d !! "_id" with
  | Some (VOid _) => true
  | _ => false
  end.

(** A create request that asks for a record on display today: the flag
    is true, [end_date] is not before today, and [start_date] is left
    out or not after today. *)
Definition request_displayable (today : string) (a : AnnouncementCreate.t) : bool :=
  bool_decide (AnnouncementCreate.is_active a = Some true)
  && String.leb today (AnnouncementCreate.end_date a)
  && match AnnouncementCreate.start_date a with
     | Some s => String.leb s today
     | None => true
     end.

(** [a] is not smaller than [b] in the BSON order. *)
Definition bson_geb (a b : value) : bool := negb (bson_ltb a b).

(** ** Sample data, to run the handlers on concrete requests *)

Definition demo_teachers : list doc :=
  [ {[ "_id" := VStr "mrodriguez"; "display_name" := VStr "Ms. Rodriguez" ]};
    {[ "_id" := VStr "mchen"; "display_name" := VStr "Mr. Chen" ]} ].

Definition demo_announcement (id title priority : string) (start : value)
    (end_ created : string) (active : bool) : doc :=
  {[ "_id" := VOid (Oid id);
     "title" := VStr title;
     "message" := VStr "See the notice board";
     "priority" := VStr priority;
     "start_date" := start;
     "end_date" := VStr end_;
     "created_by" := VStr "mrodriguez";
     "created_at" := VStr created;
     "is_active" := VBool active ]}.

Definition demo_db : Database :=
  {| teachers_collection := demo_teachers;
     announcements_collection :=
       [ demo_announcement "64b0c0ffee00000000000001" "Sports day" "low"
           VNone "2026-12-01" "2026-10-01T08:00:00" true;
         demo_announcement "64b0c0ffee00000000000002" "Exam week" "high"
           (VStr "2026-11-01") "2026-11-30" "2026-10-02T08:00:00" true;
         demo_announcement "64b0c0ffee00000000000003" "Old news" "high"
           VNone "2026-01-31" "2026-01-02T08:00:00" true;
         demo_announcement "64b0c0ffee00000000000004" "Hidden" "high"
           VNone "2026-12-31" "2026-10-03T08:00:00" false;
         demo_announcement "64b0c0ffee00000000000005" "Science fair" "urgent"
           (VStr "") "2026-12-15" "2026-10-04T08:00:00" true;
         demo_announcement "64b0c0ffee00000000000006" "Next term" "medium"
           (VStr "2027-01-05") "2027-03-01" "2026-10-05T08:00:00" true ] |}.

(** A collection with two records on display that have the same
    priority and the same [created_at], and one of higher priority
    between them. *)
Definition tie_db : Database :=
  {| teachers_collection := demo_teachers;
     announcements_collection :=
       [ demo_announcement "64b0c0ffee0000000000000a" "Bus strike" "medium"
           VNone "2026-12-01" "2026-10-01T08:00:00" true;
         demo_announcement "64b0c0ffee0000000000000b" "Fire drill" "high"
           VNone "2026-12-01" "2026-10-09T08:00:00" true;
         demo_announcement "64b0c0ffee0000000000000c" "Art show" "medium"
           VNone "2026-12-01" "2026-10-01T08:00:00" true;
         demo_announcement "64b0c0ffee0000000000000d" "Book fair" "medium"
           VNone "2026-12-01" "2026-09-01T08:00:00" true ] |}.

(** A database with staff and no announcement yet. *)
Definition fresh_db : Database :=
  {| teachers_collection := demo_teachers; announcements_collection := [] |}.

Definition titles (r : outcome (list doc)) : list value :=
  match r with
  | Return l => map (fun d => dict_get d "title") l
  | _ => []
  end.

Definition demo_id : ObjectId := Oid "64b0c0ffee00000000000007".

Definition demo_create : AnnouncementCreate.t :=
  {| AnnouncementCreate.title := "Library hours";
     AnnouncementCreate.message := "Open until 6pm";
     AnnouncementCreate.priority := Some "medium";
     AnnouncementCreate.start_date := Some "2026-11-01";
     AnnouncementCreate.end_date := "2026-12-20";
     AnnouncementCreate.is_active := Some true |}.

Definition with_dates (a : AnnouncementCreate.t) (start : option string)
    (end_ : string) : AnnouncementCreate.t :=
  {| AnnouncementCreate.title := AnnouncementCreate.title a;
     AnnouncementCreate.message := AnnouncementCreate.message a;
     AnnouncementCreate.priority := AnnouncementCreate.priority a;
     AnnouncementCreate.start_date := start;
     AnnouncementCreate.end_date := end_;
     AnnouncementCreate.is_active := AnnouncementCreate.is_active a |}.

Definition with_title (a : AnnouncementCreate.t) (t : string) : AnnouncementCreate.t :=
  {| AnnouncementCreate.title := t;
     AnnouncementCreate.message := AnnouncementCreate.message a;
     AnnouncementCreate.priority := AnnouncementCreate.priority a;
     AnnouncementCreate.start_date := AnnouncementCreate.start_date a;
     AnnouncementCreate.end_date := AnnouncementCreate.end_date a;
     AnnouncementCreate.is_active := AnnouncementCreate.is_active a |}.

(** A new title, an explicit [null] for the priority, the rest unset. *)
Definition demo_update : AnnouncementUpdate.t :=
  {| AnnouncementUpdate.title := Some (Some "Sports day (moved)");
     AnnouncementUpdate.message := None;
     AnnouncementUpdate.priority := Some None;
     AnnouncementUpdate.start_date := None;
     AnnouncementUpdate.end_date := None;
     AnnouncementUpdate.is_active := None |}.

(** Only [null]s and unset fields. *)
Definition null_update : AnnouncementUpdate.t :=
  {| AnnouncementUpdate.title := Some None;
     AnnouncementUpdate.message := None;
     AnnouncementUpdate.priority := Some None;
     AnnouncementUpdate.start_date := None;
     AnnouncementUpdate.end_date := None;
     AnnouncementUpdate.is_active := Some None |}.

(** The values the first record of [demo_db] already has. *)
Definition same_title_update : AnnouncementUpdate.t :=
  {| AnnouncementUpdate.title := Some (Some "Sports day");
     AnnouncementUpdate.message := None;
     AnnouncementUpdate.priority := Some (Some "low");
     AnnouncementUpdate.start_date := None;
     AnnouncementUpdate.end_date := Some (Some "2026-12-01");
     AnnouncementUpdate.is_active := None |}.

Definition clear_end_date : AnnouncementUpdate.t :=
  {| AnnouncementUpdate.title := None;
     AnnouncementUpdate.message := None;
     AnnouncementUpdate.priority := None;
     AnnouncementUpdate.start_date := None;
     AnnouncementUpdate.end_date := Some (Some "");
     AnnouncementUpdate.is_active := None |}.

Definition blank_title : AnnouncementUpdate.t :=
  {| AnnouncementUpdate.title := Some (Some "");
     AnnouncementUpdate.message := None;
     AnnouncementUpdate.priority := None;
     AnnouncementUpdate.start_date := None;
     AnnouncementUpdate.end_date := None;
     AnnouncementUpdate.is_active := None |}.

(** Only the flag, set to false. *)
Definition deactivate : AnnouncementUpdate.t :=
  {| AnnouncementUpdate.title := None;
     AnnouncementUpdate.message := None;
     AnnouncementUpdate.priority := None;
     AnnouncementUpdate.start_date := None;
     AnnouncementUpdate.end_date := None;
     AnnouncementUpdate.is_active := Some (Some false) |}.

(** Two dates that do not parse. *)
Definition bad_dates_update : AnnouncementUpdate.t :=
  {| AnnouncementUpdate.title := Some (Some "Sports day");
     AnnouncementUpdate.message := None;
     AnnouncementUpdate.priority := None;
     AnnouncementUpdate.start_date := Some (Some "tomorrow");
     AnnouncementUpdate.end_date := Some (Some "2026-02-30");
     AnnouncementUpdate.is_active := None |}.

(** A start date left empty and an end date that does not parse. *)
Definition bad_end_update : AnnouncementUpdate.t :=
  {| AnnouncementUpdate.title := None;
     AnnouncementUpdate.message := None;
     AnnouncementUpdate.priority := None;
     AnnouncementUpdate.start_date := Some (Some "");
     AnnouncementUpdate.end_date := Some (Some "2026-02-30");
     AnnouncementUpdate.is_active := Some (Some false) |}.

(** Closed, decidable statements are settled by evaluating their decision
    procedure. *)
Ltac by_evaluation :=
  cbv zeta; apply (bool_decide_unpack _); vm_compute; exact I.

(** * Properties *)

(** ** The date parser and the identifier parser on examples *)

Example strptime_plain : strptime "2024-02-29" = Some (2024, 2, 29).
Proof. reflexivity. Qed.
Example strptime_bad_month : strptime "2024-13-01" = None.
Proof. reflexivity. Qed.
Example strptime_bad_day : strptime "2023-02-29" = None.
Proof. reflexivity. Qed.
Example strptime_empty : strptime "" = None.
Proof. reflexivity. Qed.
Example strptime_unpadded : strptime "2024-1-5" = Some (2024, 1, 5).
Proof. reflexivity. Qed.
Example strptime_trailing : strptime "2024-01-011" = None.
Proof. reflexivity. Qed.
Example strptime_year0 : strptime "0000-01-01" = None.
Proof. reflexivity. Qed.
Example strptime_space_padded : strptime "2024-01- 5" = Some (2024, 1, 5).
Proof. reflexivity. Qed.
(** Decimal digits of other scripts count in the year and as the second
    digit of a day, not where the pattern has a range of ASCII digits. *)
Example strptime_arabic_year : strptime "٢٠٢٤-01-01" = Some (2024, 1, 1).
Proof. reflexivity. Qed.
Example strptime_arabic_day : strptime "2024-01-1٢" = Some (2024, 1, 12).
Proof. reflexivity. Qed.
Example strptime_fullwidth_year : strptime "２０２４-12-31" = Some (2024, 12, 31).
Proof. reflexivity. Qed.
Example strptime_arabic_month : strptime "2024-0١-01" = None.
Proof. reflexivity. Qed.
Example strptime_arabic_single_day : strptime "2024-01-٢" = None.
Proof. reflexivity. Qed.
Example ObjectId_ok :
  ObjectId_of_str "64B0C0FFEE00000000000001" = Some (Oid "64b0c0ffee00000000000001").
Proof. reflexivity. Qed.
Example ObjectId_bad : ObjectId_of_str "not-an-id" = None.
Proof. reflexivity. Qed.

(** ** The order on strings *)

Section string_order.

Lemma N_of_ascii_inj (a b : ascii) : N_of_ascii a = N_of_ascii b -> a = b.
Proof.
  intros H. rewrite <- (ascii_N_embedding a), <- (ascii_N_embedding b).
  by rewrite H.
Qed.

Lemma ascii_compare_refl (a : ascii) : Ascii.compare a a = Eq.
Proof. unfold Ascii.compare. apply N.compare_refl. Qed.

Lemma string_compare_refl (s : string) : String.compare s s = Eq.
Proof. induction s as [|a s IH]; simpl; [done|]. by rewrite ascii_compare_refl. Qed.

Lemma string_compare_trans_le (s1 s2 s3 : string) :
  String.compare s1 s2 <> Gt -> String.compare s2 s3 <> Gt ->
  String.compare s1 s3 <> Gt.
Proof.
  revert s2 s3. induction s1 as [|a s1 IH]; intros [|b s2] [|c s3]; simpl; try done.
  unfold Ascii.compare.
  destruct (N.compare_spec (N_of_ascii a) (N_of_ascii b)) as [Hab|Hab|Hab];
    destruct (N.compare_spec (N_of_ascii b) (N_of_ascii c)) as [Hbc|Hbc|Hbc];
    destruct (N.compare_spec (N_of_ascii a) (N_of_ascii c)) as [Hac|Hac|Hac];
    try done; try lia.
  apply IH.
Qed.

Lemma string_leb_refl (s : string) : String.leb s s = true.
Proof. unfold String.leb. by rewrite string_compare_refl. Qed.

Lemma string_leb_trans (s1 s2 s3 : string) :
  String.leb s1 s2 = true -> String.leb s2 s3 = true -> String.leb s1 s3 = true.
Proof.
  unfold String.leb. intros H12 H23.
  pose proof (string_compare_trans_le s1 s2 s3) as H.
  destruct (String.compare s1 s2), (String.compare s2 s3),
    (String.compare s1 s3); try done; exfalso; by apply H.
Qed.

Lemma string_leb_empty (s : string) : String.leb "" s = true.
Proof. by destruct s. Qed.

(** [s1 < s2] is the negation of [s2 <= s1]. *)
Lemma string_ltb_leb (s1 s2 : string) : String.ltb s1 s2 = negb (String.leb s2 s1).
Proof.
  unfold String.ltb, String.leb. rewrite (String.compare_antisym s1 s2).
  by destruct (String.compare s2 s1).
Qed.

Lemma string_ltb_irrefl (s : string) : String.ltb s s = false.
Proof. by rewrite string_ltb_leb, string_leb_refl. Qed.

End string_order.

(** ** The stable sort *)

Section stable_sort_facts.
Context {A : Type} (lt : A -> A -> bool).

Lemma insert_sorted_perm (x : A) (l : list A) : insert_sorted lt x l ≡ₚ x :: l.
Proof.
  induction l as [|y r IH]; simpl; [done|].
  destruct (lt y x); [|done].
  rewrite IH. apply Permutation_swap.
Qed.

Lemma stable_sort_perm (l : list A) : stable_sort lt l ≡ₚ l.
Proof.
  induction l as [|x l IH]; simpl; [done|].
  by rewrite insert_sorted_perm, IH.
Qed.

(** What the sort needs from [lt] to deliver a sorted list: it is
    asymmetric, and "not after" is transitive. *)
Hypothesis lt_asym : forall a b, lt a b = true -> lt b a = false.
Hypothesis not_after_trans :
  forall a b c, not_after lt a b -> not_after lt b c -> not_after lt a c.

Lemma insert_sorted_sorted (x : A) (l : list A) :
  StronglySorted (not_after lt) l -> StronglySorted (not_after lt) (insert_sorted lt x l).
Proof.
  induction 1 as [|y r Hr IH Hy]; simpl.
  - repeat constructor.
  - destruct (lt y x) eqn:Hyx.
    + constructor; [done|].
      rewrite insert_sorted_perm. constructor; [|done].
      by apply lt_asym.
    + constructor; [by constructor|].
      constructor; [done|].
      eapply Forall_impl; [exact Hy|]. intros z Hz.
      by apply (not_after_trans x y z).
Qed.

Lemma stable_sort_sorted (l : list A) :
  StronglySorted (not_after lt) (stable_sort lt l).
Proof.
  induction l as [|x l IH]; simpl; [constructor|].
  by apply insert_sorted_sorted.
Qed.
End stable_sort_facts.

(** Two comparisons that agree on the elements of a list sort it alike. *)
Lemma insert_sorted_ext {A} (lt lt' : A -> A -> bool) (x : A) (l : list A) :
  (forall y, y ∈ l -> lt y x = lt' y x) ->
  insert_sorted lt x l = insert_sorted lt' x l.
Proof.
  induction l as [|y r IH]; intros H; simpl; [done|].
  rewrite <- (H y) by left.
  destruct (lt y x); [|done].
  f_equal. apply IH. intros z Hz. apply H. by right.
Qed.

Lemma stable_sort_ext {A} (lt lt' : A -> A -> bool) (l : list A) :
  (forall x y, x ∈ l -> y ∈ l -> lt x y = lt' x y) ->
  stable_sort lt l = stable_sort lt' l.
Proof.
  induction l as [|x l IH]; intros H; simpl; [done|].
  rewrite IH by (intros; apply H; by right).
  apply insert_sorted_ext. intros y Hy.
  apply H; [|by left].
  right. by rewrite <- (stable_sort_perm lt' l).
Qed.

(** ** Listing the active announcements *)

Lemma set_id_str_listable (d : doc) :
  listable d = true -> set_id_str d = Return (rendered d).
Proof.
  unfold listable, set_id_str, rendered, dict_get.
  rewrite !andb_true_iff, bool_decide_eq_true. intros [[[v ->] _] _]. done.
Qed.

Lemma collect_active_spec (today : string) (cursor acc : list doc) :
  Forall (fun d => listable d = true) cursor ->
  collect_active today cursor acc
  = Return (acc ++ (rendered <$> List.filter (started today) cursor)).
Proof.
  intros H. revert acc. induction H as [|d r Hd Hr IH]; intros acc; simpl.
  - by rewrite app_nil_r.
  - rewrite (set_id_str_listable d Hd). simpl.
    unfold listable in Hd. rewrite !andb_true_iff in Hd.
    destruct Hd as [[_ Hs] _].
    unfold started, dict_get.
    destruct (d !! "start_date") as [[|b|s|o]|] eqn:E; simpl in *; try done.
    + by rewrite IH, <- app_assoc.
    + destruct (String.eqb_spec s "") as [->|Hne]; simpl.
      * rewrite string_leb_empty. simpl. by rewrite IH, <- app_assoc.
      * destruct (String.leb s today); simpl; [|by rewrite IH].
        by rewrite IH, <- app_assoc.
    + by rewrite IH, <- app_assoc.
Qed.

Lemma filter_displayable (today : string) (c : list doc) :
  List.filter (started today) (find (active_query today) c)
  = List.filter (displayable today) c.
Proof.
  unfold find. induction c as [|d c IH]; simpl; [done|].
  change (displayable today d) with (active_query today d && started today d).
  destruct (active_query today d); simpl; [|done].
  destruct (started today d); by rewrite IH.
Qed.

Lemma priority_rank_class (d : doc) : (sort_key d).1 = priority_class d.
Proof.
  unfold sort_key, priority_class, dict_get_or, priority_order_get. simpl.
  destruct (d !! "priority") as [[|b|s|o]|] eqn:E; simpl;
    repeat case_bool_decide; simplify_eq; try done.
  - destruct (String.eqb_spec s "high"); [congruence|].
    destruct (String.eqb_spec s "medium"); [done|].
    destruct (String.eqb_spec s "low"); [congruence|done].
Qed.

Lemma created_at_key (d : doc) :
  str_or_missing (d !! "created_at") = true ->
  (sort_key d).2 = VStr (created_at_of d).
Proof.
  unfold sort_key, created_at_of, dict_get_or. simpl.
  by destruct (d !! "created_at") as [[| | |]|].
Qed.

Lemma key_lt_doc_ltb (x y : doc) :
  str_or_missing (x !! "created_at") = true ->
  str_or_missing (y !! "created_at") = true ->
  key_lt (sort_key x) (sort_key y) = Some (doc_ltb x y).
Proof.
  intros Hx Hy. unfold key_lt, doc_ltb.
  rewrite !priority_rank_class, (created_at_key x Hx), (created_at_key y Hy).
  case_decide as Hr.
  - rewrite Hr, Nat.ltb_irrefl, Nat.eqb_refl. simpl.
    case_decide as Hs; [|done].
    injection Hs as ->. by rewrite string_ltb_irrefl.
  - apply Nat.eqb_neq in Hr. rewrite Hr. simpl. by rewrite orb_false_r.
Qed.

Lemma doc_ltb_key_before (x y : doc) : doc_ltb y x = false <-> key_before x y.
Proof.
  unfold doc_ltb, key_before. rewrite string_ltb_leb.
  rewrite orb_false_iff, andb_false_iff, Nat.ltb_ge, Nat.eqb_neq, negb_false_iff.
  split.
  - intros [Hle [Hne|Hs]]; [left; lia|].
    destruct (decide (priority_class x = priority_class y)); [by right|left; lia].
  - intros [Hlt|[Heq Hs]]; (split; [lia|]); [left; lia|by right].
Qed.

Lemma doc_ltb_asym (x y : doc) : doc_ltb x y = true -> doc_ltb y x = false.
Proof.
  intros H. apply doc_ltb_key_before.
  unfold doc_ltb in H. unfold key_before.
  apply orb_true_iff in H as [H|H].
  - left. by apply Nat.ltb_lt.
  - apply andb_true_iff in H as [H1 H2]. apply Nat.eqb_eq in H1.
    right. split; [done|].
    rewrite string_ltb_leb, negb_true_iff in H2.
    destruct (String.leb_total (created_at_of x) (created_at_of y)); congruence.
Qed.

Lemma key_before_trans (x y z : doc) :
  key_before x y -> key_before y z -> key_before x z.
Proof.
  unfold key_before. intros [H1|[H1 S1]] [H2|[H2 S2]]; try (left; lia).
  right. split; [lia|]. by eapply string_leb_trans.
Qed.

Lemma StronglySorted_lookup {A} (R : A -> A -> Prop) (l : list A) (i j : nat) (x y : A) :
  StronglySorted R l -> (i < j)%nat -> l !! i = Some x -> l !! j = Some y -> R x y.
Proof.
  intros H. revert i j. induction H as [|a l Hl IH Ha]; intros i j Hij Hi Hj.
  - done.
  - destruct j as [|j]; [lia|]. simpl in Hj. destruct i as [|i]; simpl in Hi.
    + simplify_eq. rewrite Forall_forall in Ha. apply Ha.
      by eapply list_elem_of_lookup_2.
    + eapply IH; [|done..]. lia.
Qed.

Lemma StronglySorted_weaken {A} (R R' : A -> A -> Prop) (l : list A) :
  (forall x y, R x y -> R' x y) -> StronglySorted R l -> StronglySorted R' l.
Proof.
  intros HR. induction 1 as [|a l Hl IH Ha]; constructor; [done|].
  eapply Forall_impl; [exact Ha|]. intros z. apply HR.
Qed.

Lemma comparable_listable (l : list doc) :
  Forall (fun d => str_or_missing (d !! "created_at") = true) l ->
  comparable (map sort_key l) = true.
Proof.
  intros H. unfold comparable.
  apply forallb_forall. intros k1 Hk1. apply forallb_forall. intros k2 Hk2.
  apply in_map_iff in Hk1 as (x & <- & Hx). apply in_map_iff in Hk2 as (y & <- & Hy).
  rewrite Forall_forall in H.
  apply bool_decide_eq_true.
  rewrite key_lt_doc_ltb; [done| |]; apply H; by apply list_elem_of_In.
Qed.

Lemma list_sort_listable (l : list doc) :
  Forall (fun d => str_or_missing (d !! "created_at") = true) l ->
  list_sort sort_key l = Return (stable_sort doc_ltb l).
Proof.
  intros H. unfold list_sort. rewrite comparable_listable by done.
  f_equal. apply stable_sort_ext. intros x y Hx Hy.
  rewrite Forall_forall in H.
  unfold key_ltb. by rewrite key_lt_doc_ltb by (by apply H).
Qed.

Lemma rendered_lookup_ne (d : doc) (k : string) :
  k <> "_id" -> rendered d !! k = d !! k.
Proof. intros H. unfold rendered. by rewrite lookup_insert_ne. Qed.

(** The active listing in closed form. *)
Lemma get_active_announcements_spec (today : string) (db : Database) :
  Forall (fun d => listable d = true) (announcements_collection db) ->
  get_active_announcements today db
  = Return (stable_sort doc_ltb
              (rendered <$> List.filter (displayable today) (announcements_collection db))).
Proof.
  intros H. unfold get_active_announcements.
  rewrite collect_active_spec.
  - simpl. rewrite filter_displayable. apply list_sort_listable.
    apply Forall_fmap. rewrite Forall_forall in H |- *. intros d Hd. simpl.
    rewrite rendered_lookup_ne by done.
    apply list_elem_of_In, filter_In in Hd as [Hd _].
    apply list_elem_of_In, H in Hd. unfold listable in Hd.
    by apply andb_true_iff in Hd as [_ ?].
  - rewrite Forall_forall in H |- *. intros d Hd. apply H.
    unfold find in Hd. apply list_elem_of_In, filter_In in Hd as [Hd _].
    by apply list_elem_of_In.
Qed.

Example demo_active_titles :
  titles (get_active_announcements "2026-11-04" demo_db)
  = [VStr "Exam week"; VStr "Science fair"; VStr "Sports day"].
Proof. vm_compute. reflexivity. Qed.

(** C1. On a collection of listable documents the active listing returns,
    rendered, exactly the records with [is_active] true, [end_date] not
    before today and [start_date] absent or not after today; every
    returned record has [is_active] true, so one whose flag is false is
    never returned, whatever its dates. *)
Theorem active_listing_selects (today : string) (db : Database) :
  Forall (fun d => listable d = true) (announcements_collection db) ->
  exists out,
    get_active_announcements today db = Return out
    /\ out ≡ₚ rendered <$> List.filter (displayable today) (announcements_collection db)
    /\ (forall r, r ∈ out -> r !! "is_active" = Some (VBool true))
    /\ (forall d, d ∈ announcements_collection db ->
          d !! "is_active" = Some (VBool false) -> displayable today d = false).
Proof.
  intros H. eexists. split; [by apply get_active_announcements_spec|].
  split; [apply stable_sort_perm|]. split.
  - intros r Hr. rewrite stable_sort_perm in Hr.
    apply list_elem_of_fmap in Hr as (d & -> & Hd).
    rewrite rendered_lookup_ne by done.
    apply list_elem_of_In, filter_In in Hd as [_ Hd].
    unfold displayable in Hd. rewrite !andb_true_iff in Hd.
    destruct Hd as [[Hd _] _]. by apply bool_decide_eq_true in Hd.
  - intros d _ Hd. unfold displayable. rewrite Hd. done.
Qed.

Lemma demo_db_listable :
  Forall (fun d => listable d = true) (announcements_collection demo_db).
Proof. repeat constructor. Defined.

Lemma active_listing_selects_witness :
  exists out,
    get_active_announcements "2026-11-04" demo_db = Return out
    /\ out ≡ₚ rendered <$> List.filter (displayable "2026-11-04")
                             (announcements_collection demo_db)
    /\ (forall r, r ∈ out -> r !! "is_active" = Some (VBool true))
    /\ (forall d, d ∈ announcements_collection demo_db ->
          d !! "is_active" = Some (VBool false) -> displayable "2026-11-04" d = false).
Proof. apply (active_listing_selects "2026-11-04" demo_db). exact demo_db_listable. Defined.

(** C2. The active listing is ordered by the pair (priority rank,
    [created_at]) with rank 0 for [high], 2 for [low] and 1 for [medium]
    and for every other priority: of two returned records the earlier one
    has the smaller rank or, at equal rank, a [created_at] that is not
    larger; hence a record of smaller rank always comes first. *)
Theorem active_listing_sorted (today : string) (db : Database) :
  Forall (fun d => listable d = true) (announcements_collection db) ->
  exists out,
    get_active_announcements today db = Return out
    /\ (forall i j x y, (i < j)%nat -> out !! i = Some x -> out !! j = Some y ->
          key_before x y)
    /\ (forall i j x y, out !! i = Some x -> out !! j = Some y ->
          (priority_class x < priority_class y)%nat -> (i < j)%nat).
Proof.
  intros H. eexists. split; [by apply get_active_announcements_spec|].
  set (out := stable_sort _ _).
  assert (Hs : StronglySorted key_before out).
  { eapply StronglySorted_weaken; last first.
    - apply (stable_sort_sorted doc_ltb).
      + apply doc_ltb_asym.
      + unfold not_after. intros a b c. rewrite !doc_ltb_key_before.
        apply key_before_trans.
    - intros a b Hab. by apply doc_ltb_key_before. }
  split.
  - intros i j x y Hij Hx Hy. by eapply StronglySorted_lookup.
  - intros i j x y Hx Hy Hlt.
    destruct (decide (i < j)%nat) as [|Hge]; [done|exfalso].
    destruct (decide (i = j)) as [->|Hne]; [simplify_eq; lia|].
    assert (Hb : key_before y x).
    { eapply (StronglySorted_lookup _ out j i); [done|lia|done..]. }
    destruct Hb as [?|[? _]]; lia.
Qed.

Lemma active_listing_sorted_witness :
  exists out,
    get_active_announcements "2026-11-04" demo_db = Return out
    /\ (forall i j x y, (i < j)%nat -> out !! i = Some x -> out !! j = Some y ->
          key_before x y)
    /\ (forall i j x y, out !! i = Some x -> out !! j = Some y ->
          (priority_class x < priority_class y)%nat -> (i < j)%nat).
Proof. apply (active_listing_sorted "2026-11-04" demo_db). exact demo_db_listable. Defined.

(** ** The staff gate and the store operations *)

Lemma find_existsb {A} (f : A -> bool) (l : list A) :
  List.find f l = None <-> existsb f l = false.
Proof.
  induction l as [|x l IH]; simpl; [done|].
  destruct (f x); simpl; [split; discriminate|done].
Qed.

Lemma found_find_one (v : value) (c : list doc) :
  found (find_one (id_is v) c) = existsb (id_is v) c.
Proof.
  unfold find_one. destruct (List.find (id_is v) c) as [d|] eqn:E; simpl.
  - apply find_some in E as [Hin Hd].
    transitivity true.
    + apply negb_true_iff, bool_decide_eq_false. intros ->.
      unfold id_is in Hd. apply bool_decide_eq_true in Hd.
      by rewrite lookup_empty in Hd.
    + symmetry. apply existsb_exists. eauto.
  - symmetry. by apply find_existsb.
Qed.

Lemma gate_known (u : string) (db : Database) :
  negb (found (find_one (id_is (VStr u)) (teachers_collection db)))
  = negb (staff_known u db).
Proof. unfold staff_known. by rewrite found_find_one. Qed.

(** How [update_one] changes a collection: position by position, a
    document stays or takes the new fields. *)
Lemma update_one_Forall2 (query : doc -> bool) (fields : doc) (c : list doc) :
  Forall2 (fun d d' => d' = d \/ d' = fields ∪ d) c (update_one query fields c).1.
Proof.
  induction c as [|d r IH]; simpl; [constructor|].
  destruct (query d).
  - assert (Hr : Forall2 (fun d d' => d' = d \/ d' = fields ∪ d) r r).
    { apply Forall_Forall2_diag, Forall_forall. intros; by left. }
    case_decide; simpl; (constructor; [|done]); [by left|by right].
  - destruct (update_one query fields r) as [r' res]. simpl in *.
    constructor; [by left|done].
Qed.

(** No document modified: the collection is as before. *)
Lemma update_one_unmodified (query : doc -> bool) (fields : doc) (c : list doc) :
  modified_count (update_one query fields c).2 = 0 ->
  (update_one query fields c).1 = c.
Proof.
  induction c as [|d r IH]; simpl; [done|].
  destruct (query d).
  - by case_decide.
  - destruct (update_one query fields r) as [r' res]. simpl in *.
    intros H. by rewrite IH.
Qed.

(** The count reported by [update_one] on the first document that matches. *)
Lemma update_one_modified (query : doc -> bool) (fields : doc) (c : list doc) :
  modified_count (update_one query fields c).2
  = match List.find query c with
    | Some d => if decide (fields ∪ d = d) then 0 else 1
    | None => 0
    end.
Proof.
  induction c as [|d r IH]; simpl; [done|].
  destruct (query d).
  - by case_decide.
  - destruct (update_one query fields r) as [r' res]. simpl in *. done.
Qed.

(** How [delete_one] changes a collection. *)
Lemma delete_one_spec (query : doc -> bool) (c : list doc) :
  match List.find query c with
  | Some d =>
      exists pre post,
        c = pre ++ d :: post
        /\ existsb query pre = false
        /\ delete_one query c = (pre ++ post, {| deleted_count := 1 |})
  | None => delete_one query c = (c, {| deleted_count := 0 |})
  end.
Proof.
  induction c as [|d r IH]; simpl; [done|].
  destruct (query d) eqn:Hq.
  - by exists [], r.
  - destruct (List.find query r) as [d'|].
    + destruct IH as (pre & post & -> & Hpre & ->).
      exists (d :: pre), post. simpl. by rewrite Hq, Hpre.
    + by rewrite IH.
Qed.

Lemma delete_one_sublist (query : doc -> bool) (c : list doc) :
  (delete_one query c).1 `sublist_of` c.
Proof.
  pose proof (delete_one_spec query c) as H.
  destruct (List.find query c) as [d|].
  - destruct H as (pre & post & -> & _ & ->). simpl.
    apply sublist_app; [done|]. by apply sublist_cons.
  - by rewrite H.
Qed.

(** ** Updating and deleting: the target identifier *)

Lemma update_announcement_unfold (id : string) (data : AnnouncementUpdate.t)
    (u : string) (db : Database) :
  update_announcement id data u db
  = if negb (staff_known u db) then
      (db, HTTPException 401 "Invalid teacher credentials")
    else
      match ObjectId_of_str id with
      | None => (db, HTTPException 400 "Invalid announcement ID")
      | Some oid =>
          if negb (existsb (id_is (VOid oid)) (announcements_collection db)) then
            (db, HTTPException 404 "Announcement not found")
          else
            match prepare_update (dict_exclude_unset data) ∅ with
            | Return update_data =>
                if bool_decide (update_data = ∅) then
                  (db, HTTPException 400 "No valid fields to update")
                else
                  let '(c, result) :=
                    update_one (id_is (VOid oid)) update_data
                      (announcements_collection db) in
                  if modified_count result =? 0 then
                    (with_announcements db c,
                     HTTPException 500 "Failed to update announcement")
                  else
                    (with_announcements db c,
                     Return {[ "message" := VStr "Announcement updated successfully" ]})
            | HTTPException code detail => (db, HTTPException code detail)
            | Uncaught e => (db, Uncaught e)
            end
      end.
Proof.
  unfold update_announcement. rewrite gate_known.
  destruct (negb (staff_known u db)); [done|].
  destruct (ObjectId_of_str id) as [oid|]; [|done].
  by rewrite found_find_one.
Qed.

Lemma delete_announcement_unfold (id : string) (u : string) (db : Database) :
  delete_announcement id u db
  = if negb (staff_known u db) then
      (db, HTTPException 401 "Invalid teacher credentials")
    else
      match ObjectId_of_str id with
      | None => (db, HTTPException 400 "Invalid announcement ID")
      | Some oid =>
          let '(c, result) :=
            delete_one (id_is (VOid oid)) (announcements_collection db) in
          if deleted_count result =? 0 then
            (with_announcements db c, HTTPException 404 "Announcement not found")
          else
            (with_announcements db c,
             Return {[ "message" := VStr "Announcement deleted successfully" ]})
      end.
Proof. unfold delete_announcement. by rewrite gate_known. Qed.

Lemma with_announcements_same (db : Database) :
  with_announcements db (announcements_collection db) = db.
Proof. by destruct db. Qed.

(** C3, as the code has it.  For a known staff member, an update whose
    target does not exist fails and leaves the database as it was: with
    400 "Invalid announcement ID" when the identifier is not
    syntactically valid, with 404 "Announcement not found" when it is
    well-formed and matches no record. *)
Theorem update_target_errors (id : string) (data : AnnouncementUpdate.t)
    (u : string) (db : Database) :
  staff_known u db = true ->
  (forall oid, ObjectId_of_str id = Some oid ->
     existsb (id_is (VOid oid)) (announcements_collection db) = false) ->
  update_announcement id data u db
  = (db, match ObjectId_of_str id with
         | None => HTTPException 400 "Invalid announcement ID"
         | Some _ => HTTPException 404 "Announcement not found"
         end).
Proof.
  intros Hu Hmiss. rewrite update_announcement_unfold, Hu. simpl.
  destruct (ObjectId_of_str id) as [oid|]; [|done].
  by rewrite (Hmiss oid eq_refl).
Qed.

Lemma update_target_errors_witness :
  update_announcement "not-an-id" demo_update "mrodriguez" demo_db
  = (demo_db, HTTPException 400 "Invalid announcement ID")
  /\ update_announcement "64b0c0ffee0000000000beef" demo_update "mrodriguez" demo_db
     = (demo_db, HTTPException 404 "Announcement not found").
Proof.
  split.
  - apply (update_target_errors "not-an-id" demo_update "mrodriguez" demo_db).
    + reflexivity.
    + intros oid H. vm_compute in H. discriminate.
  - apply (update_target_errors "64b0c0ffee0000000000beef" demo_update
             "mrodriguez" demo_db).
    + reflexivity.
    + intros oid H. vm_compute in H. injection H as <-. vm_compute. reflexivity.
Defined.

(** C3 as stated fails: a malformed identifier is not reported as "not
    found"; its status is 400 and differs from the 404 that a missing
    well-formed identifier gets. *)
Lemma update_invalid_id_is_not_404 :
  ObjectId_of_str "not-an-id" = None
  /\ (update_announcement "not-an-id" demo_update "mrodriguez" demo_db).2
     = HTTPException 400 "Invalid announcement ID"
  /\ (update_announcement "64b0c0ffee0000000000beef" demo_update "mrodriguez" demo_db).2
     = HTTPException 404 "Announcement not found"
  /\ (update_announcement "not-an-id" demo_update "mrodriguez" demo_db).2
     <> (update_announcement "64b0c0ffee0000000000beef" demo_update "mrodriguez" demo_db).2.
Proof. vm_compute. repeat split; discriminate. Qed.

Lemma unique_ids_delete (query : doc -> bool) (c : list doc) :
  unique_ids c -> unique_ids (delete_one query c).1.
Proof.
  unfold unique_ids. intros H.
  eapply sublist_NoDup; [exact H|].
  apply fmap_sublist, delete_one_sublist.
Qed.

Lemma deleted_id_gone (v : value) (c : list doc) :
  unique_ids c -> existsb (id_is v) (delete_one (id_is v) c).1 = false.
Proof.
  intros Hu. pose proof (delete_one_spec (id_is v) c) as H.
  destruct (List.find (id_is v) c) as [d|] eqn:E.
  - destruct H as (pre & post & -> & Hpre & ->). simpl.
    rewrite existsb_app, Hpre. simpl.
    apply find_some in E as [_ Hd]. apply bool_decide_eq_true in Hd.
    unfold unique_ids in Hu. rewrite fmap_app, fmap_cons in Hu.
    apply NoDup_app in Hu as (_ & _ & Hu). apply NoDup_cons in Hu as [Hu _].
    apply not_true_iff_false. intros Hex. apply existsb_exists in Hex as (d' & Hin & Hd').
    apply bool_decide_eq_true in Hd'. apply Hu.
    rewrite Hd, <- Hd'. apply list_elem_of_fmap. exists d'. split; [done|].
    by apply list_elem_of_In.
  - rewrite H. simpl. by apply find_existsb.
Qed.

(** C8, as the code has it.  For a known staff member: a malformed
    identifier fails with 400 "Invalid announcement ID"; a well-formed
    one that matches no record fails with 404 "Announcement not found";
    in both cases nothing is removed.  When a record matches, the first
    such record, and only it, is removed.  With unique identifiers,
    deleting the same identifier again is answered with 404. *)
Theorem delete_outcomes (id : string) (u : string) (db : Database) :
  staff_known u db = true ->
  match ObjectId_of_str id with
  | None => delete_announcement id u db
            = (db, HTTPException 400 "Invalid announcement ID")
  | Some oid =>
      match List.find (id_is (VOid oid)) (announcements_collection db) with
      | None => delete_announcement id u db
                = (db, HTTPException 404 "Announcement not found")
      | Some d =>
          exists pre post,
            announcements_collection db = pre ++ d :: post
            /\ existsb (id_is (VOid oid)) pre = false
            /\ delete_announcement id u db
               = (with_announcements db (pre ++ post),
                  Return {[ "message" := VStr "Announcement deleted successfully" ]})
      end
      /\ (unique_ids (announcements_collection db) ->
          delete_announcement id u (delete_announcement id u db).1
          = ((delete_announcement id u db).1,
             HTTPException 404 "Announcement not found"))
  end.
Proof.
  intros Hu.
  destruct (ObjectId_of_str id) as [oid|] eqn:Hid;
    [|by rewrite delete_announcement_unfold, Hu, Hid].
  pose proof (delete_one_spec (id_is (VOid oid)) (announcements_collection db)) as H.
  split.
  - rewrite delete_announcement_unfold, Hu, Hid. simpl.
    destruct (List.find _ _) as [d|].
    + destruct H as (pre & post & Hc & Hpre & Hdel).
      exists pre, post. by rewrite Hdel.
    + rewrite H. simpl. by rewrite with_announcements_same.
  - intros Huniq.
    assert (Hdb1 : (delete_announcement id u db).1 = with_announcements db
              (delete_one (id_is (VOid oid)) (announcements_collection db)).1).
    { rewrite delete_announcement_unfold, Hu, Hid. simpl.
      destruct (delete_one _ _) as [c res]. simpl.
      by destruct (deleted_count res =? 0). }
    set (db1 := (delete_announcement id u db).1) in *.
    rewrite delete_announcement_unfold, Hid.
    replace (staff_known u db1) with true by (by rewrite Hdb1).
    simpl.
    pose proof (delete_one_spec (id_is (VOid oid)) (announcements_collection db1)) as H1.
    assert (Hgone : List.find (id_is (VOid oid)) (announcements_collection db1) = None).
    { apply find_existsb. rewrite Hdb1. simpl. by apply deleted_id_gone. }
    rewrite Hgone in H1. rewrite H1. simpl. by rewrite with_announcements_same.
Qed.

Lemma delete_outcomes_witness :
  delete_announcement "not-an-id" "mrodriguez" demo_db
  = (demo_db, HTTPException 400 "Invalid announcement ID")
  /\ (delete_announcement "64b0c0ffee0000000000beef" "mrodriguez" demo_db
      = (demo_db, HTTPException 404 "Announcement not found")
      /\ (unique_ids (announcements_collection demo_db) ->
          delete_announcement "64b0c0ffee0000000000beef" "mrodriguez"
            (delete_announcement "64b0c0ffee0000000000beef" "mrodriguez" demo_db).1
          = ((delete_announcement "64b0c0ffee0000000000beef" "mrodriguez" demo_db).1,
             HTTPException 404 "Announcement not found"))).
Proof.
  split.
  - exact (delete_outcomes "not-an-id" "mrodriguez" demo_db eq_refl).
  - exact (delete_outcomes "64b0c0ffee0000000000beef" "mrodriguez" demo_db eq_refl).
Defined.

Example delete_then_delete_again :
  let db1 := (delete_announcement "64b0c0ffee00000000000003" "mchen" demo_db).1 in
  status_of (delete_announcement "64b0c0ffee00000000000003" "mchen" demo_db).2 = Some 200
  /\ List.length (announcements_collection db1) = 5%nat
  /\ status_of (delete_announcement "64b0c0ffee00000000000003" "mchen" db1).2 = Some 404.
Proof. vm_compute. done. Qed.

(** C8 as stated fails: a malformed identifier is answered with status
    400, which is not the status (404) of "not found". *)
Lemma delete_invalid_id_is_not_404 :
  ObjectId_of_str "not-an-id" = None
  /\ status_of (delete_announcement "not-an-id" "mrodriguez" demo_db).2 = Some 400
  /\ status_of (delete_announcement "64b0c0ffee0000000000beef" "mrodriguez" demo_db).2
     = Some 404
  /\ status_of (delete_announcement "not-an-id" "mrodriguez" demo_db).2
     <> status_of (delete_announcement "64b0c0ffee0000000000beef" "mrodriguez" demo_db).2.
Proof. vm_compute. repeat split; discriminate. Qed.

(** ** Creating an announcement *)

Lemma create_announcement_unfold (a : AnnouncementCreate.t) (u now : string)
    (id : ObjectId) (db : Database) :
  create_announcement a u now id db
  = if negb (staff_known u db) then
      (db, HTTPException 401 "Invalid teacher credentials")
    else if negb (dates_parse a) then
      (db, HTTPException 400 "Invalid date format. Use YYYY-MM-DD")
    else if existsb (id_is (VOid id)) (announcements_collection db) then
      (db, Uncaught "DuplicateKeyError")
    else
      (with_announcements db (announcements_collection db ++ [stored_doc a u now id]),
       Return {[ "message" := VStr "Announcement created successfully";
                 "id" := VStr (py_str (VOid id)) ]}).
Proof.
  unfold create_announcement. rewrite gate_known.
  destruct (negb (staff_known u db)); [done|].
  destruct (negb (dates_parse a)); [done|].
  unfold insert_one. by destruct (existsb _ _).
Qed.

(** When the date checks of [create_announcement] fail. *)
Lemma dates_parse_false (a : AnnouncementCreate.t) :
  dates_parse a = false
  <-> strptime (AnnouncementCreate.end_date a) = None
      \/ exists s, AnnouncementCreate.start_date a = Some s /\ s <> ""
                   /\ strptime s = None.
Proof.
  unfold dates_parse. rewrite andb_false_iff, !bool_decide_eq_false.
  destruct (AnnouncementCreate.start_date a) as [s|]; simpl.
  - destruct (String.eqb_spec s "") as [->|Hs]; simpl.
    + rewrite <- eq_None_not_Some. split; [intros [?|?]; [done|by left]|].
      intros [?|(s & ? & ? & ?)]; [by right|congruence].
    + rewrite bool_decide_eq_false, <- !eq_None_not_Some.
      split; [intros [?|?]; [right; eauto|by left]|].
      intros [?|(s' & ? & ? & ?)]; [by right|left; congruence].
  - rewrite <- eq_None_not_Some. split; [intros [?|?]; [done|by left]|].
    intros [?|(s & ? & ? & ?)]; [by right|congruence].
Qed.

(** C4, as the code has it.  [create_announcement] fails with 401 when
    the staff identifier does not resolve and otherwise with 400 when
    [end_date], or a supplied non-empty [start_date], does not parse; in
    each of these cases the database is left as it was. *)
Theorem create_rejects (a : AnnouncementCreate.t) (u now : string)
    (id : ObjectId) (db : Database) :
  staff_known u db = false
  \/ strptime (AnnouncementCreate.end_date a) = None
  \/ (exists s, AnnouncementCreate.start_date a = Some s /\ s <> ""
                /\ strptime s = None) ->
  create_announcement a u now id db
  = (db, if staff_known u db
         then HTTPException 400 "Invalid date format. Use YYYY-MM-DD"
         else HTTPException 401 "Invalid teacher credentials").
Proof.
  intros H. rewrite create_announcement_unfold.
  destruct (staff_known u db); [|done]. simpl.
  destruct H as [H|H]; [done|].
  apply dates_parse_false in H. by rewrite H.
Qed.

Lemma create_rejects_witness :
  create_announcement (with_dates demo_create None "2024-13-01") "mrodriguez"
    "2026-11-04T09:00:00" demo_id demo_db
  = (demo_db, HTTPException 400 "Invalid date format. Use YYYY-MM-DD")
  /\ create_announcement demo_create "nobody" "2026-11-04T09:00:00" demo_id demo_db
     = (demo_db, HTTPException 401 "Invalid teacher credentials")
  /\ create_announcement (with_dates demo_create (Some "11/01/2026") "2026-12-20")
       "mrodriguez" "2026-11-04T09:00:00" demo_id demo_db
     = (demo_db, HTTPException 400 "Invalid date format. Use YYYY-MM-DD").
Proof.
  split; [|split].
  - apply (create_rejects (with_dates demo_create None "2024-13-01") "mrodriguez"
             "2026-11-04T09:00:00" demo_id demo_db).
    right. left. reflexivity.
  - apply (create_rejects demo_create "nobody" "2026-11-04T09:00:00" demo_id demo_db).
    left. reflexivity.
  - apply (create_rejects (with_dates demo_create (Some "11/01/2026") "2026-12-20")
             "mrodriguez" "2026-11-04T09:00:00" demo_id demo_db).
    right. right. exists "11/01/2026".
    split; [reflexivity|split; [discriminate|reflexivity]].
Defined.

(** C4 as stated fails: a [start_date] supplied as the empty string does
    not parse, yet the request is accepted and a record is persisted. *)
Lemma create_accepts_empty_start_date :
  let request := with_dates demo_create (Some "") "2026-12-20" in
  let result := create_announcement request "mrodriguez" "2026-11-04T09:00:00"
                  demo_id demo_db in
  strptime "" = None
  /\ status_of result.2 = Some 200
  /\ announcements_collection result.1
     = announcements_collection demo_db
       ++ [stored_doc request "mrodriguez" "2026-11-04T09:00:00" demo_id]
  /\ stored_doc request "mrodriguez" "2026-11-04T09:00:00" demo_id !! "start_date"
     = Some (VStr "").
Proof. by_evaluation. Qed.

(** What a successful [create_announcement] has done. *)
Lemma create_announcement_success (a : AnnouncementCreate.t) (u now : string)
    (id : ObjectId) (db db' : Database) (body : doc) :
  create_announcement a u now id db = (db', Return body) ->
  staff_known u db = true
  /\ dates_parse a = true
  /\ existsb (id_is (VOid id)) (announcements_collection db) = false
  /\ db' = with_announcements db
             (announcements_collection db ++ [stored_doc a u now id])
  /\ body = {[ "message" := VStr "Announcement created successfully";
               "id" := VStr (py_str (VOid id)) ]}.
Proof.
  rewrite create_announcement_unfold.
  destruct (staff_known u db); simpl; [|by inversion 1].
  destruct (dates_parse a); simpl; [|by inversion 1].
  destruct (existsb _ _); [by inversion 1|].
  by inversion 1.
Qed.

(** Any other outcome of [create_announcement] leaves the database as it
    was. *)
Lemma create_announcement_changes (a : AnnouncementCreate.t) (u now : string)
    (id : ObjectId) (db : Database) :
  (create_announcement a u now id db).1 = db
  \/ (create_announcement a u now id db).1
     = with_announcements db
         (announcements_collection db ++ [stored_doc a u now id]).
Proof.
  rewrite create_announcement_unfold.
  destruct (negb (staff_known u db)); [by left|].
  destruct (negb (dates_parse a)); [by left|].
  destruct (existsb _ _); [by left|by right].
Qed.

Lemma collect_all_spec (cursor acc : list doc) :
  Forall (fun d => is_Some (d !! "_id")) cursor ->
  collect_all cursor acc = Return (acc ++ (rendered <$> cursor)).
Proof.
  intros H. revert acc. induction H as [|d r [v Hd] Hr IH]; intros acc; simpl.
  - by rewrite app_nil_r.
  - unfold set_id_str. rewrite Hd. simpl. rewrite IH, <- app_assoc.
    unfold rendered, dict_get. by rewrite Hd.
Qed.

Lemma find_sort_desc_perm (field : string) (c : list doc) :
  find_sort_desc field c ≡ₚ c.
Proof. apply stable_sort_perm. Qed.

(** The full listing in closed form. *)
Lemma get_all_announcements_spec (u : string) (db : Database) :
  u <> "" -> staff_known u db = true ->
  Forall (fun d => is_Some (d !! "_id")) (announcements_collection db) ->
  get_all_announcements (Some u) db
  = Return (rendered <$> find_sort_desc "created_at" (announcements_collection db)).
Proof.
  intros Hu Hk Hid. unfold get_all_announcements. simpl.
  destruct (String.eqb_spec u ""); [done|]. simpl.
  rewrite gate_known, Hk. simpl.
  rewrite collect_all_spec; [done|].
  by rewrite find_sort_desc_perm.
Qed.

(** C5. After a successful create, the full listing (asked for by any
    known staff member) contains a record made of the request's fields,
    the identifier the create reported, [created_at] as stamped by the
    server, and [created_by] equal to the staff identifier given to
    create; the request body has no [created_by] field to take it from. *)
Theorem create_then_list_all (a : AnnouncementCreate.t) (u now : string)
    (id : ObjectId) (db db' : Database) (body : doc) (viewer : string) :
  create_announcement a u now id db = (db', Return body) ->
  Forall (fun d => is_Some (d !! "_id")) (announcements_collection db) ->
  viewer <> "" -> staff_known viewer db = true ->
  exists listing sid,
    get_all_announcements (Some viewer) db' = Return listing
    /\ body !! "id" = Some (VStr sid)
    /\ ({[ "_id" := VStr sid;
           "title" := VStr (AnnouncementCreate.title a);
           "message" := VStr (AnnouncementCreate.message a);
           "priority" := opt_str (AnnouncementCreate.priority a);
           "start_date" := opt_str (AnnouncementCreate.start_date a);
           "end_date" := VStr (AnnouncementCreate.end_date a);
           "created_by" := VStr u;
           "created_at" := VStr now;
           "is_active" := opt_bool (AnnouncementCreate.is_active a) ]} : doc)
       ∈ listing.
Proof.
  intros Hc Hid Hv Hk.
  apply create_announcement_success in Hc as (_ & _ & _ & -> & ->).
  eexists _, (py_str (VOid id)).
  split; [|split].
  - apply get_all_announcements_spec; [done|done|]. simpl.
    apply Forall_app. split; [done|].
    constructor; [|done]. unfold stored_doc. rewrite lookup_insert_eq. eauto.
  - done.
  - apply list_elem_of_fmap. exists (stored_doc a u now id). split.
    + unfold rendered, stored_doc, dict_get.
      rewrite lookup_insert_eq. simpl. by rewrite insert_insert_eq.
    + rewrite find_sort_desc_perm. simpl. apply elem_of_app. right. by left.
Qed.

Lemma demo_db_has_ids :
  Forall (fun d : doc => is_Some (d !! "_id")) (announcements_collection demo_db).
Proof. repeat constructor; by_evaluation. Defined.

Lemma create_then_list_all_witness :
  exists listing sid,
    get_all_announcements (Some "mchen")
      (create_announcement demo_create "mrodriguez" "2026-11-04T09:00:00"
         demo_id demo_db).1
    = Return listing
    /\ (create_announcement demo_create "mrodriguez" "2026-11-04T09:00:00"
          demo_id demo_db).2
       = Return {[ "message" := VStr "Announcement created successfully";
                   "id" := VStr sid ]}
    /\ ({[ "_id" := VStr sid;
           "title" := VStr "Library hours";
           "message" := VStr "Open until 6pm";
           "priority" := VStr "medium";
           "start_date" := VStr "2026-11-01";
           "end_date" := VStr "2026-12-20";
           "created_by" := VStr "mrodriguez";
           "created_at" := VStr "2026-11-04T09:00:00";
           "is_active" := VBool true ]} : doc)
       ∈ listing.
Proof.
  destruct (create_then_list_all demo_create "mrodriguez" "2026-11-04T09:00:00"
              demo_id demo_db
              (create_announcement demo_create "mrodriguez" "2026-11-04T09:00:00"
                 demo_id demo_db).1
              {[ "message" := VStr "Announcement created successfully";
                 "id" := VStr "64b0c0ffee00000000000007" ]}
              "mchen")
    as (listing & sid & Hl & Hid & Hin).
  - by_evaluation.
  - exact demo_db_has_ids.
  - discriminate.
  - reflexivity.
  - exists listing, sid. split; [exact Hl|]. split; [|exact Hin].
    assert (sid = "64b0c0ffee00000000000007") as ->; [|by_evaluation].
    assert (H : ({[ "message" := VStr "Announcement created successfully";
                    "id" := VStr "64b0c0ffee00000000000007" ]} : doc) !! "id"
                = Some (VStr "64b0c0ffee00000000000007")) by by_evaluation.
    congruence.
Defined.

(** ** Updating an announcement *)

Lemma date_field_eqb (f : string) :
  String.eqb f "start_date" || String.eqb f "end_date" = true <-> date_field f.
Proof.
  unfold date_field. rewrite orb_true_iff.
  by destruct (String.eqb_spec f "start_date"), (String.eqb_spec f "end_date");
    split; (intros [?|?]; [by left + done| by right + done]).
Qed.

(** Where the entries of [update_data] come from. *)
Lemma prepare_update_lookup (items : list (string * value)) (acc ud : doc) :
  prepare_update items acc = Return ud ->
  forall f v, ud !! f = Some v ->
    acc !! f = Some v
    \/ ((f, v) ∈ items /\ v <> VNone
        /\ (date_field f -> truthy v = true ->
            exists s, v = VStr s /\ is_Some (strptime s))).
Proof.
  revert acc. induction items as [|[field v0] rest IH]; intros acc H f v Hf; simpl in H.
  - left. by simplify_eq.
  - assert (Hrest : forall acc', prepare_update rest acc' = Return ud ->
              acc' = <[field := v0]> acc -> v0 <> VNone ->
              (date_field field -> truthy v0 = true ->
               exists s, v0 = VStr s /\ is_Some (strptime s)) ->
              acc !! f = Some v
              \/ ((f, v) ∈ (field, v0) :: rest /\ v <> VNone
                  /\ (date_field f -> truthy v = true ->
                      exists s, v = VStr s /\ is_Some (strptime s)))).
    { intros acc' H' -> Hv0 Hdate.
      destruct (IH _ H' f v Hf) as [Hacc|(Hin & Hv & Hd)].
      - apply lookup_insert_Some in Hacc as [[<- <-]|[_ Hacc]]; [|by left].
        right. split; [by left|]. done.
      - right. split; [by right|]. done. }
    case_bool_decide as Hnone.
    + destruct (IH _ H f v Hf) as [?|(Hin & Hv & Hd)]; [by left|].
      right. split; [by right|]. done.
    + destruct ((String.eqb field "start_date" || String.eqb field "end_date")
                && truthy v0) eqn:Hcond.
      * destruct v0 as [|b|s|o]; try done.
        destruct (strptime s) as [date|] eqn:Hs; [|done].
        eapply Hrest; [done..|]. intros _ _. exists s. eauto.
      * eapply Hrest; [done..|]. intros Hd Ht.
        apply date_field_eqb in Hd. by rewrite Hd, Ht in Hcond.
Qed.

(** Conversely, when no field name occurs twice, every supplied non-null
    value is in [update_data], and what was there before stays. *)
Lemma prepare_update_applies (items : list (string * value)) (acc ud : doc) :
  prepare_update items acc = Return ud ->
  NoDup (items.*1) ->
  forall f v,
    ((f, v) ∈ items /\ v <> VNone) \/ (acc !! f = Some v /\ f ∉ items.*1) ->
    ud !! f = Some v.
Proof.
  revert acc. induction items as [|[field v0] rest IH]; intros acc H Hnd f v Hf;
    simpl in H.
  - destruct Hf as [[Hin _]|[Hacc _]]; [by apply elem_of_nil in Hin|by simplify_eq].
  - rewrite fmap_cons in Hnd. apply NoDup_cons in Hnd as [Hfield Hnd]. simpl in Hfield.
    assert (Hstep : forall acc', prepare_update rest acc' = Return ud ->
              acc' = <[field := v0]> acc -> v0 <> VNone -> ud !! f = Some v).
    { intros acc' H' -> Hv0. apply (IH _ H' Hnd).
      destruct Hf as [[Hin Hv]|[Hacc Hnin]].
      - apply elem_of_cons in Hin as [Heq|Hin]; [|by left].
        simplify_eq. right. by rewrite lookup_insert_eq.
      - rewrite fmap_cons in Hnin. apply not_elem_of_cons in Hnin as [Hne Hnin].
        right. simpl in Hne. by rewrite lookup_insert_ne. }
    case_bool_decide as Hnone.
    + apply (IH _ H Hnd). destruct Hf as [[Hin Hv]|[Hacc Hnin]].
      * apply elem_of_cons in Hin as [Heq|Hin]; [by simplify_eq|by left].
      * rewrite fmap_cons in Hnin. apply not_elem_of_cons in Hnin as [_ Hnin].
        by right.
    + destruct ((String.eqb field "start_date" || String.eqb field "end_date")
                && truthy v0).
      * destruct v0 as [|b|s|o]; try done.
        destruct (strptime s); [|done]. by eapply Hstep.
      * by eapply Hstep.
Qed.

Lemma dict_exclude_unset_NoDup (data : AnnouncementUpdate.t) :
  NoDup ((dict_exclude_unset data).*1).
Proof.
  destruct data as [t m p s e a]. unfold dict_exclude_unset. simpl.
  destruct t, m, p, s, e, a; simpl; by_evaluation.
Qed.

(** Nothing but skipped fields: [update_data] stays as it is. *)
Lemma prepare_update_skip (items : list (string * value)) (acc : doc) :
  (forall f v, (f, v) ∈ items -> v = VNone) ->
  prepare_update items acc = Return acc.
Proof.
  induction items as [|[field v0] rest IH]; intros H; simpl; [done|].
  rewrite (H field v0) by left. simpl.
  apply IH. intros f v Hin. apply (H f v). by right.
Qed.

Lemma item_elem {A} (name : string) (inj : option A -> value)
    (o : option (option A)) (f : string) (v : value) :
  (f, v) ∈ item name inj o <-> f = name /\ exists x, o = Some x /\ v = inj x.
Proof.
  destruct o as [x|]; simpl.
  - rewrite list_elem_of_singleton. split.
    + intros [= -> ->]. eauto.
    + intros (-> & y & [= <-] & ->). done.
  - split; [by intros ?%elem_of_nil|]. by intros (_ & y & ? & _).
Qed.

(** The payload only names the six mutable fields, and its non-null
    values are text, or a boolean for [is_active]. *)
Lemma dict_exclude_unset_elem (data : AnnouncementUpdate.t) (f : string) (v : value) :
  (f, v) ∈ dict_exclude_unset data <->
  (f = "title" /\ exists x, AnnouncementUpdate.title data = Some x /\ v = opt_str x)
  \/ (f = "message" /\ exists x, AnnouncementUpdate.message data = Some x /\ v = opt_str x)
  \/ (f = "priority" /\ exists x, AnnouncementUpdate.priority data = Some x /\ v = opt_str x)
  \/ (f = "start_date" /\ exists x, AnnouncementUpdate.start_date data = Some x /\ v = opt_str x)
  \/ (f = "end_date" /\ exists x, AnnouncementUpdate.end_date data = Some x /\ v = opt_str x)
  \/ (f = "is_active" /\ exists x, AnnouncementUpdate.is_active data = Some x /\ v = opt_bool x).
Proof. unfold dict_exclude_unset. by rewrite !elem_of_app, !item_elem. Qed.

Lemma opt_str_text (x : option string) : opt_str x <> VNone -> exists s, x = Some s.
Proof. destruct x; [eauto|done]. Qed.

(** The entries of [update_data], read off the payload. *)
Lemma update_data_lookup (data : AnnouncementUpdate.t) (ud : doc) (f : string) (v : value) :
  prepare_update (dict_exclude_unset data) ∅ = Return ud ->
  ud !! f = Some v ->
  (f, v) ∈ dict_exclude_unset data /\ v <> VNone
  /\ (date_field f -> truthy v = true -> exists s, v = VStr s /\ is_Some (strptime s)).
Proof.
  intros H Hf. destruct (prepare_update_lookup _ _ _ H f v Hf) as [He|?]; [|done].
  by rewrite lookup_empty in He.
Qed.

Lemma update_data_skipped (data : AnnouncementUpdate.t) (ud : doc) (f : string) :
  prepare_update (dict_exclude_unset data) ∅ = Return ud ->
  skipped data f -> ud !! f = None.
Proof.
  intros H Hs. destruct (ud !! f) as [v|] eqn:Hf; [|done].
  destruct (update_data_lookup data ud f v H Hf) as (Hin & Hv & _).
  unfold skipped in Hs. rewrite Forall_forall in Hs.
  by specialize (Hs (f, v) Hin eq_refl).
Qed.

(** What [update_announcement] can do to the database. *)
Lemma update_announcement_changes (id : string) (data : AnnouncementUpdate.t)
    (u : string) (db : Database) :
  (update_announcement id data u db).1 = db
  \/ exists oid ud,
       ObjectId_of_str id = Some oid
       /\ prepare_update (dict_exclude_unset data) ∅ = Return ud
       /\ (update_announcement id data u db).1
          = with_announcements db
              (update_one (id_is (VOid oid)) ud (announcements_collection db)).1.
Proof.
  rewrite update_announcement_unfold.
  destruct (negb (staff_known u db)); [by left|].
  destruct (ObjectId_of_str id) as [oid|]; [|by left].
  destruct (negb (existsb _ _)); [by left|].
  destruct (prepare_update _ _) as [ud| |]; [|by left..].
  case_bool_decide; [by left|].
  right. exists oid, ud. split; [done|]. split; [done|].
  destruct (update_one _ _ _) as [c res]. simpl.
  by destruct (modified_count res =? 0).
Qed.

Lemma update_one_untouched (query : doc -> bool) (ud : doc) (c : list doc) (f : string) :
  ud !! f = None ->
  Forall2 (fun d d' => d' !! f = d !! f) c (update_one query ud c).1.
Proof.
  intros Hf. eapply Forall2_impl; [apply update_one_Forall2|].
  intros d d' [->| ->]; [done|]. by apply lookup_union_r.
Qed.

(** C6. A field that the payload does not set, or sets to [null], keeps
    its stored value in every record, whatever the outcome of the update;
    and when no field is left to change, the update of an existing record
    by a known staff member fails with 400 "No valid fields to update"
    and the database is as before. *)
Theorem update_skips (id : string) (data : AnnouncementUpdate.t) (u : string)
    (db : Database) (f : string) :
  skipped data f ->
  Forall2 (fun d d' => d' !! f = d !! f)
    (announcements_collection db)
    (announcements_collection (update_announcement id data u db).1)
  /\ (nothing_supplied data -> staff_known u db = true ->
      target_exists id db = true ->
      update_announcement id data u db
      = (db, HTTPException 400 "No valid fields to update")).
Proof.
  intros Hs. split.
  - destruct (update_announcement_changes id data u db)
      as [->|(oid & ud & _ & Hud & ->)].
    + apply Forall_Forall2_diag, Forall_forall. done.
    + simpl. apply update_one_untouched. by eapply update_data_skipped.
  - intros Hn Hu Ht. rewrite update_announcement_unfold, Hu. simpl.
    unfold target_exists in Ht.
    destruct (ObjectId_of_str id) as [oid|]; [|done].
    rewrite Ht. simpl. rewrite prepare_update_skip; [done|].
    intros g v Hin. unfold nothing_supplied in Hn. rewrite Forall_forall in Hn.
    apply (Hn (g, v) Hin).
Qed.

Lemma update_skips_witness :
  (Forall2 (fun d d' : doc => d' !! "priority" = d !! "priority")
     (announcements_collection demo_db)
     (announcements_collection
        (update_announcement "64b0c0ffee00000000000001" demo_update "mrodriguez"
           demo_db).1)
   /\ (nothing_supplied demo_update -> staff_known "mrodriguez" demo_db = true ->
       target_exists "64b0c0ffee00000000000001" demo_db = true ->
       update_announcement "64b0c0ffee00000000000001" demo_update "mrodriguez" demo_db
       = (demo_db, HTTPException 400 "No valid fields to update")))
  /\ update_announcement "64b0c0ffee00000000000001" null_update "mrodriguez" demo_db
     = (demo_db, HTTPException 400 "No valid fields to update").
Proof.
  split.
  - apply (update_skips "64b0c0ffee00000000000001" demo_update "mrodriguez" demo_db
             "priority").
    by_evaluation.
  - apply (update_skips "64b0c0ffee00000000000001" null_update "mrodriguez" demo_db
             "title").
    + by_evaluation.
    + by_evaluation.
    + reflexivity.
    + by_evaluation.
Defined.

Example demo_update_applied :
  let db1 := (update_announcement "64b0c0ffee00000000000001" demo_update
                "mrodriguez" demo_db).1 in
  (fun d => (dict_get d "title", dict_get d "priority"))
    <$> announcements_collection db1 !! 0%nat
  = Some (VStr "Sports day (moved)", VStr "low").
Proof. by_evaluation. Qed.

(** The loop that fills [update_data] only ever fails with status 400. *)
Lemma prepare_update_status (items : list (string * value)) (acc : doc)
    (code : Z) (detail : string) :
  prepare_update items acc = HTTPException code detail -> code = 400.
Proof.
  revert acc. induction items as [|[field v0] rest IH]; intros acc; simpl; [done|].
  case_bool_decide; [apply IH|].
  destruct (_ && _); [|apply IH].
  destruct v0 as [|b|s|o]; try done.
  destruct (strptime s); [apply IH|]. by intros [= <- _].
Qed.

(** Supplying the values a record already has changes nothing in it. *)
Lemma same_values_union (data : AnnouncementUpdate.t) (ud d : doc) :
  prepare_update (dict_exclude_unset data) ∅ = Return ud ->
  Forall (fun p => p.2 <> VNone -> d !! p.1 = Some p.2) (dict_exclude_unset data) ->
  ud ∪ d = d.
Proof.
  intros Hud Hsame. apply map_eq. intros f.
  destruct (ud !! f) as [v|] eqn:Hf; [|by apply lookup_union_r].
  rewrite (lookup_union_Some_l _ _ _ _ Hf).
  destruct (update_data_lookup data ud f v Hud Hf) as (Hin & Hv & _).
  rewrite Forall_forall in Hsame. symmetry. by apply (Hsame (f, v) Hin).
Qed.

(** C7. An update ends in the storage error 500 exactly when it gets as
    far as the store (known staff member, well-formed identifier of an
    existing record, dates accepted, at least one field to change) and
    the store reports zero records modified.  That is the case in
    particular when every supplied value equals the value the record
    already has; the database is then as before. *)
Theorem update_storage_error (id : string) (data : AnnouncementUpdate.t)
    (u : string) (db : Database) :
  ((exists detail,
      (update_announcement id data u db).2 = HTTPException 500 detail)
   <-> exists oid ud,
         staff_known u db = true
         /\ ObjectId_of_str id = Some oid
         /\ existsb (id_is (VOid oid)) (announcements_collection db) = true
         /\ prepare_update (dict_exclude_unset data) ∅ = Return ud
         /\ ud <> ∅
         /\ modified_count
              (update_one (id_is (VOid oid)) ud (announcements_collection db)).2 = 0)
  /\ (forall oid ud d,
        staff_known u db = true ->
        ObjectId_of_str id = Some oid ->
        find_one (id_is (VOid oid)) (announcements_collection db) = Some d ->
        prepare_update (dict_exclude_unset data) ∅ = Return ud ->
        ud <> ∅ ->
        Forall (fun p => p.2 <> VNone -> d !! p.1 = Some p.2)
          (dict_exclude_unset data) ->
        update_announcement id data u db
        = (db, HTTPException 500 "Failed to update announcement")).
Proof.
  assert (Hstore : forall oid ud,
            staff_known u db = true ->
            ObjectId_of_str id = Some oid ->
            existsb (id_is (VOid oid)) (announcements_collection db) = true ->
            prepare_update (dict_exclude_unset data) ∅ = Return ud ->
            ud <> ∅ ->
            modified_count
              (update_one (id_is (VOid oid)) ud (announcements_collection db)).2 = 0 ->
            update_announcement id data u db
            = (db, HTTPException 500 "Failed to update announcement")).
  { intros oid ud Hu Hid Hex Hud Hne Hmod.
    rewrite update_announcement_unfold, Hu, Hid, Hex, Hud. simpl.
    rewrite bool_decide_eq_false_2 by done.
    pose proof (update_one_unmodified _ _ _ Hmod) as Hc.
    destruct (update_one _ _ _) as [c res]. simpl in *.
    rewrite Hmod. simpl. by rewrite Hc, with_announcements_same. }
  split; [split|].
  - intros [detail H]. rewrite update_announcement_unfold in H.
    destruct (staff_known u db) eqn:Hu; simpl in H; [|done].
    destruct (ObjectId_of_str id) as [oid|] eqn:Hid; [|done].
    destruct (existsb _ _) eqn:Hex; simpl in H; [|done].
    destruct (prepare_update _ _) as [ud|code detail'|e] eqn:Hud; simpl in H.
    + case_bool_decide as Hne; [done|].
      exists oid, ud. repeat (split; [done|]).
      destruct (update_one _ _ _) as [c res]. simpl in *.
      destruct (modified_count res =? 0) eqn:Hmod; [lia|done].
    + apply prepare_update_status in Hud. by simplify_eq.
    + done.
  - intros (oid & ud & Hu & Hid & Hex & Hud & Hne & Hmod).
    eexists. by rewrite (Hstore oid ud).
  - intros oid ud d Hu Hid Hfind Hud Hne Hsame.
    apply (Hstore oid ud); try done.
    + apply not_false_iff_true. intros Hex%find_existsb.
      unfold find_one in Hfind. congruence.
    + rewrite update_one_modified. unfold find_one in Hfind. rewrite Hfind.
      rewrite decide_True; [done|]. by eapply same_values_union.
Qed.

Lemma update_storage_error_witness :
  update_announcement "64b0c0ffee00000000000001" same_title_update "mrodriguez" demo_db
  = (demo_db, HTTPException 500 "Failed to update announcement").
Proof.
  apply (proj2 (update_storage_error "64b0c0ffee00000000000001" same_title_update
                  "mrodriguez" demo_db)
           (Oid "64b0c0ffee00000000000001")
           {[ "title" := VStr "Sports day"; "priority" := VStr "low";
              "end_date" := VStr "2026-12-01" ]}
           (demo_announcement "64b0c0ffee00000000000001" "Sports day" "low"
              VNone "2026-12-01" "2026-10-01T08:00:00" true)).
  - reflexivity.
  - reflexivity.
  - by_evaluation.
  - by_evaluation.
  - by_evaluation.
  - by_evaluation.
Defined.

(** ** What the handlers keep true of the stored records *)

Lemma stored_doc_lookup (a : AnnouncementCreate.t) (u now : string) (id : ObjectId) :
  let d := stored_doc a u now id in
  d !! "_id" = Some (VOid id)
  /\ d !! "title" = Some (VStr (AnnouncementCreate.title a))
  /\ d !! "start_date" = Some (opt_str (AnnouncementCreate.start_date a))
  /\ d !! "end_date" = Some (VStr (AnnouncementCreate.end_date a))
  /\ d !! "created_by" = Some (VStr u)
  /\ d !! "created_at" = Some (VStr now).
Proof. unfold stored_doc, announcement_doc. simpl. by simplify_map_eq. Qed.

Section preservation.
Context (P : doc -> Prop).

Lemma create_preserves (a : AnnouncementCreate.t) (u now : string)
    (id : ObjectId) (db : Database) :
  Forall P (announcements_collection db) ->
  (staff_known u db = true -> dates_parse a = true -> P (stored_doc a u now id)) ->
  Forall P (announcements_collection (create_announcement a u now id db).1).
Proof.
  intros Hdb Hnew. rewrite create_announcement_unfold.
  destruct (staff_known u db); simpl; [|done].
  destruct (dates_parse a); simpl; [|done].
  destruct (existsb _ _); simpl; [done|].
  apply Forall_app. split; [done|]. constructor; [by apply Hnew|done].
Qed.

Lemma update_preserves (id : string) (data : AnnouncementUpdate.t) (u : string)
    (db : Database) :
  Forall P (announcements_collection db) ->
  (forall d ud, P d ->
     prepare_update (dict_exclude_unset data) ∅ = Return ud -> P (ud ∪ d)) ->
  Forall P (announcements_collection (update_announcement id data u db).1).
Proof.
  intros Hdb Hstep.
  destruct (update_announcement_changes id data u db)
    as [->|(oid & ud & _ & Hud & ->)]; [done|]. simpl.
  pose proof (update_one_Forall2 (id_is (VOid oid)) ud (announcements_collection db)) as H2.
  induction H2 as [|d d' c c' Hd Hc IH]; [done|].
  apply Forall_cons in Hdb as [Hd0 Hdb]. constructor; [|by apply IH].
  destruct Hd as [->| ->]; [done|]. by apply Hstep.
Qed.

Lemma delete_preserves (id : string) (u : string) (db : Database) :
  Forall P (announcements_collection db) ->
  Forall P (announcements_collection (delete_announcement id u db).1).
Proof.
  intros Hdb. rewrite delete_announcement_unfold.
  destruct (negb (staff_known u db)); [done|].
  destruct (ObjectId_of_str id) as [oid|]; [|done].
  pose proof (delete_one_sublist (id_is (VOid oid)) (announcements_collection db)) as Hs.
  destruct (delete_one _ _) as [c res]. simpl in Hs.
  assert (Forall P c).
  { rewrite Forall_forall in Hdb |- *. intros x Hx. apply Hdb.
    by eapply elem_of_sublist. }
  by destruct (deleted_count res =? 0).
Qed.
End preservation.

(** A field of a record after [$set]: the supplied value if there is one,
    else the stored one. *)
Lemma set_lookup (data : AnnouncementUpdate.t) (ud d : doc) (f : string) :
  prepare_update (dict_exclude_unset data) ∅ = Return ud ->
  (ud ∪ d) !! f = d !! f
  \/ exists v, (ud ∪ d) !! f = Some v
       /\ (f, v) ∈ dict_exclude_unset data /\ v <> VNone
       /\ (date_field f -> truthy v = true ->
           exists s, v = VStr s /\ is_Some (strptime s)).
Proof.
  intros Hud. destruct (ud !! f) as [v|] eqn:Hf.
  - right. exists v. split; [by apply lookup_union_Some_l|].
    by eapply update_data_lookup.
  - left. by apply lookup_union_r.
Qed.

(** The listing handlers can process whatever the other handlers store. *)
Lemma listable_create (a : AnnouncementCreate.t) (u now : string)
    (id : ObjectId) (db : Database) :
  Forall (fun d => listable d = true) (announcements_collection db) ->
  Forall (fun d => listable d = true)
    (announcements_collection (create_announcement a u now id db).1).
Proof.
  intros H. apply create_preserves; [done|]. intros _ _.
  destruct (stored_doc_lookup a u now id) as (Hid & _ & Hs & _ & _ & Hc).
  unfold listable. rewrite Hid, Hs, Hc. simpl.
  by destruct (AnnouncementCreate.start_date a).
Qed.

Lemma listable_update (id : string) (data : AnnouncementUpdate.t) (u : string)
    (db : Database) :
  Forall (fun d => listable d = true) (announcements_collection db) ->
  Forall (fun d => listable d = true)
    (announcements_collection (update_announcement id data u db).1).
Proof.
  intros H. apply update_preserves; [done|]. intros d ud Hd Hud.
  unfold listable in *. rewrite !andb_true_iff in *.
  destruct Hd as [[Hid Hs] Hc]. split; [split|].
  - destruct (set_lookup data ud d "_id" Hud) as [->|(v & -> & _)]; [done|].
    apply bool_decide_eq_true. eauto.
  - destruct (set_lookup data ud d "start_date" Hud) as [->|(v & -> & Hin & Hv & _)];
      [done|].
    apply dict_exclude_unset_elem in Hin.
    destruct Hin as [[? _]|[[? _]|[[? _]|[(_ & x & _ & ->)|[[? _]|[? _]]]]]]; try done.
    by destruct x.
  - destruct (set_lookup data ud d "created_at" Hud) as [->|(v & _ & Hin & _)]; [done|].
    apply dict_exclude_unset_elem in Hin.
    by destruct Hin as [[? _]|[[? _]|[[? _]|[[? _]|[[? _]|[? _]]]]]].
Qed.

Lemma listable_delete (id : string) (u : string) (db : Database) :
  Forall (fun d => listable d = true) (announcements_collection db) ->
  Forall (fun d => listable d = true)
    (announcements_collection (delete_announcement id u db).1).
Proof. apply delete_preserves. Qed.

(** *** Dates *)






(** The update handler checks a date only when it is non-empty, and
    stores it either way: an update can blank the [end_date] that create
    insists on. *)
Example update_blanks_end_date :
  let db1 := (create_announcement demo_create "mrodriguez" "2026-11-04T09:00:00"
                demo_id fresh_db).1 in
  let result := update_announcement "64b0c0ffee00000000000007" clear_end_date
                  "mrodriguez" db1 in
  Forall (fun d => dates_valid d = true) (announcements_collection db1)
  /\ status_of result.2 = Some 200
  /\ Exists (fun d : doc => d !! "end_date" = Some (VStr ""))
       (announcements_collection result.1).
Proof. by_evaluation. Qed.

(** The parser is lenient about padding: it takes a month or day written
    with one digit, which is not of the fixed width [YYYY-MM-DD]. *)
Example create_accepts_unpadded_date :
  status_of (create_announcement (with_dates demo_create None "2026-12-5")
               "mrodriguez" "2026-11-04T09:00:00" demo_id fresh_db).2 = Some 200.
Proof. by_evaluation. Qed.

(** *** Titles *)

(** C10, as the code has it.  Nothing checks that a title is non-empty.
    A create stores the title of the request as it is; every handler
    keeps each stored [title] a text, possibly empty, and an update
    leaves it as it was or sets it to the text the payload supplies. *)
Theorem title_is_text (db : Database) :
  Forall (fun d => title_text d = true) (announcements_collection db) ->
  (forall a u now id,
     Forall (fun d => title_text d = true)
       (announcements_collection (create_announcement a u now id db).1)
     /\ forall db' body,
          create_announcement a u now id db = (db', Return body) ->
          exists d, last (announcements_collection db') = Some d
                    /\ d !! "_id" = Some (VOid id)
                    /\ d !! "title" = Some (VStr (AnnouncementCreate.title a)))
  /\ (forall id data u,
        Forall2 (fun d d' =>
                   d' !! "title" = d !! "title"
                   \/ exists s, AnnouncementUpdate.title data = Some (Some s)
                                /\ d' !! "title" = Some (VStr s))
          (announcements_collection db)
          (announcements_collection (update_announcement id data u db).1)
        /\ Forall (fun d => title_text d = true)
             (announcements_collection (update_announcement id data u db).1))
  /\ (forall id u,
        Forall (fun d => title_text d = true)
          (announcements_collection (delete_announcement id u db).1)).
Proof.
  intros Hdb.
  assert (Hset : forall data ud d,
            prepare_update (dict_exclude_unset data) ∅ = Return ud ->
            (ud ∪ d) !! "title" = d !! "title"
            \/ exists s, AnnouncementUpdate.title data = Some (Some s)
                         /\ (ud ∪ d) !! "title" = Some (VStr s)).
  { intros data ud d Hud.
    destruct (set_lookup data ud d "title" Hud) as [?|(v & -> & Hin & Hv & _)];
      [by left|right].
    apply dict_exclude_unset_elem in Hin.
    destruct Hin as [(_ & x & Hx & ->)|[[? _]|[[? _]|[[? _]|[[? _]|[? _]]]]]]; try done.
    destruct x as [s|]; [|done]. by exists s. }
  split; [|split].
  - intros a u now id.
    destruct (stored_doc_lookup a u now id) as (Hid & Ht & _).
    split.
    + apply create_preserves; [done|]. intros _ _.
      unfold title_text. by rewrite Ht.
    + intros db' body Hc.
      apply create_announcement_success in Hc as (_ & _ & _ & -> & _).
      exists (stored_doc a u now id). simpl. by rewrite last_snoc.
  - intros id data u. split.
    + destruct (update_announcement_changes id data u db)
        as [->|(oid & ud & _ & Hud & ->)].
      * apply Forall_Forall2_diag, Forall_forall. intros; by left.
      * simpl. eapply Forall2_impl; [apply update_one_Forall2|].
        intros d d' [->| ->]; [by left|]. by apply Hset.
    + apply update_preserves; [done|]. intros d ud Hd Hud.
      unfold title_text in *.
      destruct (Hset data ud d Hud) as [->|(s & _ & ->)]; done.
  - intros id u. by apply delete_preserves.
Qed.

Lemma title_is_text_witness :
  (forall a u now id,
     Forall (fun d => title_text d = true)
       (announcements_collection (create_announcement a u now id demo_db).1)
     /\ forall db' body,
          create_announcement a u now id demo_db = (db', Return body) ->
          exists d, last (announcements_collection db') = Some d
                    /\ d !! "_id" = Some (VOid id)
                    /\ d !! "title" = Some (VStr (AnnouncementCreate.title a)))
  /\ (forall id data u,
        Forall2 (fun d d' =>
                   d' !! "title" = d !! "title"
                   \/ exists s, AnnouncementUpdate.title data = Some (Some s)
                                /\ d' !! "title" = Some (VStr s))
          (announcements_collection demo_db)
          (announcements_collection (update_announcement id data u demo_db).1)
        /\ Forall (fun d => title_text d = true)
             (announcements_collection (update_announcement id data u demo_db).1))
  /\ (forall id u,
        Forall (fun d => title_text d = true)
          (announcements_collection (delete_announcement id u demo_db).1)).
Proof. apply (title_is_text demo_db). by_evaluation. Defined.

(** C10 as stated fails: a create with an empty title succeeds and
    persists it, and an update can set an empty title. *)
Lemma empty_title_persisted :
  let created := create_announcement (with_title demo_create "") "mrodriguez"
                   "2026-11-04T09:00:00" demo_id fresh_db in
  let updated := update_announcement "64b0c0ffee00000000000001" blank_title
                   "mrodriguez" demo_db in
  (status_of created.2 = Some 200
   /\ ~ Forall (fun d => title_nonempty d = true) (announcements_collection created.1)
   /\ Exists (fun d : doc => d !! "title" = Some (VStr ""))
        (announcements_collection created.1))
  /\ (Forall (fun d => title_nonempty d = true) (announcements_collection demo_db)
      /\ status_of updated.2 = Some 200
      /\ Exists (fun d : doc => d !! "title" = Some (VStr ""))
           (announcements_collection updated.1)).
Proof. by_evaluation. Qed.

(** ** Further facts about the model *)

(** How [update_one] changes a collection: the first matching document
    takes the new fields. *)
Lemma update_one_spec (query : doc -> bool) (fields : doc) (c : list doc) :
  match List.find query c with
  | Some d =>
      exists pre post,
        c = pre ++ d :: post
        /\ existsb query pre = false
        /\ (update_one query fields c).1 = pre ++ (fields ∪ d) :: post
  | None => (update_one query fields c).1 = c
  end.
Proof.
  induction c as [|d r IH]; simpl; [done|].
  destruct (query d) eqn:Hq.
  - exists [], r. repeat split. simpl. case_decide as Hsame; simpl; [|done].
    by rewrite Hsame.
  - destruct (update_one query fields r) as [r' res]. simpl in *.
    destruct (List.find query r) as [d'|].
    + destruct IH as (pre & post & -> & Hpre & ->).
      exists (d :: pre), post. simpl. by rewrite Hq, Hpre.
    + by rewrite IH.
Qed.

(** A successful update has replaced the first record with the target
    identifier by the same record with every supplied non-null value
    written into it, and nothing else. *)
Lemma update_announcement_success (id : string) (data : AnnouncementUpdate.t)
    (u : string) (db db' : Database) (body : doc) :
  update_announcement id data u db = (db', Return body) ->
  exists oid d d' pre post,
    ObjectId_of_str id = Some oid
    /\ announcements_collection db = pre ++ d :: post
    /\ existsb (id_is (VOid oid)) pre = false
    /\ d !! "_id" = Some (VOid oid)
    /\ announcements_collection db' = pre ++ d' :: post
    /\ d' <> d
    /\ forall f,
         (skipped data f -> d' !! f = d !! f)
         /\ (forall v, (f, v) ∈ dict_exclude_unset data -> v <> VNone ->
                       d' !! f = Some v).
Proof.
  rewrite update_announcement_unfold.
  destruct (negb (staff_known u db)); [by inversion 1|].
  destruct (ObjectId_of_str id) as [oid|]; [|by inversion 1].
  destruct (negb (existsb _ _)); [by inversion 1|].
  destruct (prepare_update _ _) as [ud| |] eqn:Hud; [|by inversion 1..].
  case_bool_decide; [by inversion 1|].
  pose proof (update_one_spec (id_is (VOid oid)) ud (announcements_collection db)) as Hspec.
  pose proof (update_one_modified (id_is (VOid oid)) ud (announcements_collection db)) as Hmod.
  destruct (update_one _ _ _) as [c res]. simpl in *.
  destruct (modified_count res =? 0) eqn:Hz; [by inversion 1|].
  intros [= <- _]. simpl.
  destruct (List.find _ _) as [d|] eqn:Hfind; [|lia].
  destruct Hspec as (pre & post & Hc & Hpre & ->).
  apply find_some in Hfind as [_ Hd]. apply bool_decide_eq_true in Hd.
  exists oid, d, (ud ∪ d), pre, post. repeat (split; [done|]).
  split; [by case_decide; [lia|]|].
  intros f. split.
  - intros Hs. apply lookup_union_r. by eapply update_data_skipped.
  - intros v Hin Hv. apply lookup_union_Some_l.
    eapply prepare_update_applies; [done|apply dict_exclude_unset_NoDup|].
    by left.
Qed.

(** The sort is stable: records that the comparison does not tell apart
    keep the order they had. *)
Lemma insert_sorted_filter {A} (lt : A -> A -> bool) (p : A -> bool) (x : A) (l : list A) :
  (p x = true -> forall y, p y = true -> lt y x = false) ->
  List.filter p (insert_sorted lt x l) = List.filter p (x :: l).
Proof.
  intros Hp. induction l as [|y r IH]; [done|].
  cbn [insert_sorted]. destruct (lt y x) eqn:Hyx; [|done].
  cbn [List.filter] in *. rewrite IH.
  destruct (p x) eqn:Hx; [|done].
  destruct (p y) eqn:Hy; [|done].
  rewrite (Hp eq_refl y Hy) in Hyx. done.
Qed.

Lemma stable_sort_stable {A} (lt : A -> A -> bool) (p : A -> bool) (l : list A) :
  (forall x y, p x = true -> p y = true -> lt y x = false) ->
  List.filter p (stable_sort lt l) = List.filter p l.
Proof.
  intros Hp. induction l as [|x l IH]; [done|].
  cbn [stable_sort foldr]. rewrite insert_sorted_filter by eauto.
  cbn [List.filter]. fold (stable_sort lt l). by rewrite IH.
Qed.

(** X14. In the active listing, records of the same rank and the same
    [created_at] come in the order of the collection: the sort is
    stable. *)
Lemma active_listing_stable (today : string) (db : Database) (rank : nat)
    (created : string) (out : list doc) :
  Forall (fun d => listable d = true) (announcements_collection db) ->
  get_active_announcements today db = Return out ->
  let same_key d :=
    bool_decide (priority_class d = rank /\ created_at_of d = created) in
  List.filter same_key out
  = List.filter same_key
      (rendered <$> List.filter (displayable today) (announcements_collection db)).
Proof.
  intros H Hout same_key. rewrite get_active_announcements_spec in Hout by done.
  injection Hout as <-. apply stable_sort_stable.
  intros x y [Hx1 Hx2]%bool_decide_eq_true [Hy1 Hy2]%bool_decide_eq_true.
  unfold doc_ltb. rewrite Hx1, Hx2, Hy1, Hy2.
  by rewrite Nat.ltb_irrefl, string_ltb_irrefl, andb_false_r.
Qed.

(** * Further properties of the handlers *)

(** ** Who may call what *)

(** X1. The full listing refuses a missing staff identifier and an empty
    one with 401 "Authentication required for this action", whatever the
    Staff Directory holds, and a non-empty identifier that does not
    resolve with 401 "Invalid teacher credentials". *)
Theorem list_all_requires_staff (teacher_username : option string) (db : Database) :
  (teacher_username = None \/ teacher_username = Some "" ->
   get_all_announcements teacher_username db
   = HTTPException 401 "Authentication required for this action")
  /\ (forall u, teacher_username = Some u -> u <> "" -> staff_known u db = false ->
      get_all_announcements teacher_username db
      = HTTPException 401 "Invalid teacher credentials").
Proof.
  split.
  - by intros [-> | ->].
  - intros u -> Hu Hk. unfold get_all_announcements. simpl.
    destruct (String.eqb_spec u ""); [done|]. simpl.
    by rewrite gate_known, Hk.
Qed.

Lemma list_all_requires_staff_witness :
  get_all_announcements (Some "")
    {| teachers_collection := [ {[ "_id" := VStr "" ]} ];
       announcements_collection := [] |}
  = HTTPException 401 "Authentication required for this action"
  /\ get_all_announcements (Some "nobody") demo_db
     = HTTPException 401 "Invalid teacher credentials".
Proof.
  split.
  - apply (proj1 (list_all_requires_staff (Some "") _)). by right.
  - apply (proj2 (list_all_requires_staff (Some "nobody") demo_db) "nobody").
    + reflexivity.
    + discriminate.
    + reflexivity.
Defined.

(** X2. An update or a delete by a staff identifier that does not
    resolve fails with 401 "Invalid teacher credentials" and changes
    nothing, whatever the target identifier and the payload are. *)
Theorem writes_require_staff (id : string) (data : AnnouncementUpdate.t)
    (u : string) (db : Database) :
  staff_known u db = false ->
  update_announcement id data u db
  = (db, HTTPException 401 "Invalid teacher credentials")
  /\ delete_announcement id u db
     = (db, HTTPException 401 "Invalid teacher credentials").
Proof.
  intros Hk. by rewrite update_announcement_unfold, delete_announcement_unfold, Hk.
Qed.

Lemma writes_require_staff_witness :
  update_announcement "not-an-id" bad_dates_update "nobody" demo_db
  = (demo_db, HTTPException 401 "Invalid teacher credentials")
  /\ delete_announcement "not-an-id" "nobody" demo_db
     = (demo_db, HTTPException 401 "Invalid teacher credentials").
Proof.
  apply (writes_require_staff "not-an-id" bad_dates_update "nobody" demo_db).
  reflexivity.
Defined.

(** X3. No handler writes to the Staff Directory: after a create, an
    update or a delete the same staff identifiers resolve as before. *)
Theorem staff_directory_untouched (db : Database) (u : string) :
  (forall a who now id,
     staff_known u (create_announcement a who now id db).1 = staff_known u db)
  /\ (forall id data who,
        staff_known u (update_announcement id data who db).1 = staff_known u db)
  /\ (forall id who,
        staff_known u (delete_announcement id who db).1 = staff_known u db).
Proof.
  split; [|split].
  - intros a who now id.
    by destruct (create_announcement_changes a who now id db) as [-> | ->].
  - intros id data who.
    by destruct (update_announcement_changes id data who db)
      as [->|(oid & ud & _ & _ & ->)].
  - intros id who. rewrite delete_announcement_unfold.
    destruct (negb (staff_known who db)); [done|].
    destruct (ObjectId_of_str id); [|done].
    destruct (delete_one _ _) as [c res].
    by destruct (deleted_count res =? 0).
Qed.

(** ** All or nothing *)

Lemma delete_one_none (query : doc -> bool) (c : list doc) :
  deleted_count (delete_one query c).2 = 0 -> (delete_one query c).1 = c.
Proof.
  pose proof (delete_one_spec query c) as H.
  destruct (List.find query c); [|by rewrite H].
  by destruct H as (pre & post & _ & _ & ->).
Qed.

(** X4. A create, an update or a delete that does not answer with
    success has left the database exactly as it was. *)
Theorem failure_changes_nothing (db : Database) :
  (forall a u now id,
     (create_announcement a u now id db).1 = db
     \/ exists body, (create_announcement a u now id db).2 = Return body)
  /\ (forall id data u,
        (update_announcement id data u db).1 = db
        \/ exists body, (update_announcement id data u db).2 = Return body)
  /\ (forall id u,
        (delete_announcement id u db).1 = db
        \/ exists body, (delete_announcement id u db).2 = Return body).
Proof.
  split; [|split].
  - intros a u now id. rewrite create_announcement_unfold.
    destruct (negb (staff_known u db)); [by left|].
    destruct (negb (dates_parse a)); [by left|].
    destruct (existsb _ _); [by left|right; eauto].
  - intros id data u. rewrite update_announcement_unfold.
    destruct (negb (staff_known u db)); [by left|].
    destruct (ObjectId_of_str id) as [oid|]; [|by left].
    destruct (negb (existsb _ _)); [by left|].
    destruct (prepare_update _ _) as [ud| |]; [|by left..].
    case_bool_decide; [by left|].
    pose proof (update_one_unmodified (id_is (VOid oid)) ud
                  (announcements_collection db)) as Hsame.
    destruct (update_one _ _ _) as [c res]. simpl in *.
    destruct (modified_count res =? 0) eqn:Hz; [|right; eauto].
    left. simpl. rewrite Hsame by lia. apply with_announcements_same.
  - intros id u. rewrite delete_announcement_unfold.
    destruct (negb (staff_known u db)); [by left|].
    destruct (ObjectId_of_str id) as [oid|]; [|by left].
    pose proof (delete_one_none (id_is (VOid oid)) (announcements_collection db))
      as Hsame.
    destruct (delete_one _ _) as [c res]. simpl in *.
    destruct (deleted_count res =? 0) eqn:Hz; [|right; eauto].
    left. simpl. rewrite Hsame by lia. apply with_announcements_same.
Qed.

(** ** More on updates *)

Lemma prepare_update_app (l1 l2 : list (string * value)) (acc : doc) :
  prepare_update (l1 ++ l2) acc
  = let* m := prepare_update l1 acc in prepare_update l2 m.
Proof.
  revert acc. induction l1 as [|[field v] l1 IH]; intros acc; simpl; [done|].
  case_bool_decide; [apply IH|].
  destruct (_ && _); [|apply IH].
  destruct v as [|b|s|o]; try done.
  destruct (strptime s); [apply IH|done].
Qed.

(** A field that is not a date never stops the loop. *)
Lemma prepare_update_plain {A} (name : string) (inj : option A -> value)
    (o : option (option A)) (acc : doc) :
  String.eqb name "start_date" || String.eqb name "end_date" = false ->
  exists acc', prepare_update (item name inj o) acc = Return acc'.
Proof.
  intros Hname. destruct o as [x|]; simpl; [|eauto].
  case_bool_decide; [eauto|]. rewrite Hname. simpl. eauto.
Qed.

(** A date field stops the loop when its value is non-empty and does not
    parse, and only then. *)
Lemma prepare_update_date (name : string) (o : option (option string)) (acc : doc) :
  String.eqb name "start_date" || String.eqb name "end_date" = true ->
  match o with
  | Some (Some s) =>
      if String.eqb s "" then
        prepare_update (item name opt_str o) acc = Return (<[name := VStr s]> acc)
      else
        match strptime s with
        | Some _ =>
            prepare_update (item name opt_str o) acc = Return (<[name := VStr s]> acc)
        | None =>
            prepare_update (item name opt_str o) acc
            = HTTPException 400 ("Invalid " +:+ name +:+ " format. Use YYYY-MM-DD")
        end
  | _ => prepare_update (item name opt_str o) acc = Return acc
  end.
Proof.
  intros Hname. destruct o as [[s|]|]; simpl; try done.
  rewrite Hname. simpl. destruct (String.eqb s ""); simpl; [done|].
  by destruct (strptime s).
Qed.

(** X5. An update of an existing record by a known staff member that
    supplies a non-empty [start_date] which does not parse fails with 400
    "Invalid start_date format. Use YYYY-MM-DD"; if the [start_date]
    passes (unset, [null], empty or accepted) and a non-empty [end_date]
    does not parse, it fails with 400 "Invalid end_date format. Use
    YYYY-MM-DD".  Either way nothing is changed, whatever else the
    payload holds. *)
Theorem update_names_bad_date (id : string) (data : AnnouncementUpdate.t)
    (u : string) (db : Database) :
  staff_known u db = true ->
  target_exists id db = true ->
  (forall s, AnnouncementUpdate.start_date data = Some (Some s) ->
             s <> "" -> strptime s = None ->
     update_announcement id data u db
     = (db, HTTPException 400 "Invalid start_date format. Use YYYY-MM-DD"))
  /\ (forall e, AnnouncementUpdate.end_date data = Some (Some e) ->
                e <> "" -> strptime e = None ->
        match AnnouncementUpdate.start_date data with
        | Some (Some s) => s = "" \/ is_Some (strptime s)
        | _ => True
        end ->
        update_announcement id data u db
        = (db, HTTPException 400 "Invalid end_date format. Use YYYY-MM-DD")).
Proof.
  intros Hk Ht.
  assert (Hup : forall code detail,
            prepare_update (dict_exclude_unset data) ∅ = HTTPException code detail ->
            update_announcement id data u db = (db, HTTPException code detail)).
  { intros code detail Hp. rewrite update_announcement_unfold, Hk. simpl.
    unfold target_exists in Ht. destruct (ObjectId_of_str id); [|done].
    by rewrite Ht, Hp. }
  destruct (prepare_update_plain "title" opt_str (AnnouncementUpdate.title data) ∅)
    as [m1 H1]; [done|].
  destruct (prepare_update_plain "message" opt_str (AnnouncementUpdate.message data) m1)
    as [m2 H2]; [done|].
  destruct (prepare_update_plain "priority" opt_str (AnnouncementUpdate.priority data) m2)
    as [m3 H3]; [done|].
  assert (Hprep :
            prepare_update (dict_exclude_unset data) ∅
            = let* m4 := prepare_update
                           (item "start_date" opt_str
                              (AnnouncementUpdate.start_date data)) m3 in
              prepare_update
                (item "end_date" opt_str (AnnouncementUpdate.end_date data)
                 ++ item "is_active" opt_bool (AnnouncementUpdate.is_active data)) m4).
  { unfold dict_exclude_unset.
    rewrite prepare_update_app, H1. simpl.
    rewrite prepare_update_app, H2. simpl.
    rewrite prepare_update_app, H3. simpl.
    by rewrite prepare_update_app. }
  pose proof (prepare_update_date "start_date"
                (AnnouncementUpdate.start_date data) m3 eq_refl) as Hs.
  split.
  - intros s Hst Hne Hbad. rewrite Hst in Hs.
    destruct (String.eqb_spec s ""); [done|]. rewrite Hbad in Hs.
    apply Hup. by rewrite Hprep, Hst, Hs.
  - intros e Hen Hne Hbad Hstart.
    assert (Hs' : exists m4, prepare_update
                    (item "start_date" opt_str (AnnouncementUpdate.start_date data)) m3
                  = Return m4).
    { destruct (AnnouncementUpdate.start_date data) as [[s|]|]; [|eauto..].
      destruct (String.eqb_spec s ""); [eauto|].
      destruct Hstart as [?|[date Hd]]; [done|]. rewrite Hd in Hs. eauto. }
    destruct Hs' as [m4 H4].
    pose proof (prepare_update_date "end_date"
                  (AnnouncementUpdate.end_date data) m4 eq_refl) as He.
    rewrite Hen in He. destruct (String.eqb_spec e ""); [done|]. rewrite Hbad in He.
    apply Hup. rewrite Hprep, H4. simpl.
    by rewrite prepare_update_app, Hen, He.
Qed.

Lemma update_names_bad_date_witness :
  update_announcement "64b0c0ffee00000000000001" bad_dates_update "mrodriguez" demo_db
  = (demo_db, HTTPException 400 "Invalid start_date format. Use YYYY-MM-DD")
  /\ update_announcement "64b0c0ffee00000000000001" bad_end_update "mrodriguez" demo_db
     = (demo_db, HTTPException 400 "Invalid end_date format. Use YYYY-MM-DD").
Proof.
  split.
  - apply (proj1 (update_names_bad_date "64b0c0ffee00000000000001" bad_dates_update
                    "mrodriguez" demo_db eq_refl ltac:(by_evaluation)) "tomorrow").
    + reflexivity.
    + discriminate.
    + reflexivity.
  - apply (proj2 (update_names_bad_date "64b0c0ffee00000000000001" bad_end_update
                    "mrodriguez" demo_db eq_refl ltac:(by_evaluation)) "2026-02-30").
    + reflexivity.
    + discriminate.
    + reflexivity.
    + by left.
Defined.

Lemma mutable_field_names (data : AnnouncementUpdate.t) (f : string) (v : value) :
  (f, v) ∈ dict_exclude_unset data -> f ∈ mutable_fields.
Proof.
  intros Hin. apply dict_exclude_unset_elem in Hin. unfold mutable_fields.
  destruct Hin as [[-> _]|[[-> _]|[[-> _]|[[-> _]|[[-> _]|[-> _]]]]]];
    repeat (first [by left|right]).
Qed.

Lemma immutable_skipped (data : AnnouncementUpdate.t) (f : string) :
  f ∉ mutable_fields -> skipped data f.
Proof.
  intros Hf. unfold skipped. apply Forall_forall. intros [g v] Hin Hg.
  simpl in *. subst g. by apply mutable_field_names in Hin.
Qed.

(** X6. Whatever its outcome and its payload, an update changes no field
    other than [title], [message], [priority], [start_date], [end_date]
    and [is_active] in any record (so ["_id"], [created_by] and
    [created_at] stay as stored), and it neither adds nor removes a
    record. *)
Theorem update_keeps_other_fields (id : string) (data : AnnouncementUpdate.t)
    (u : string) (db : Database) (f : string) :
  f ∉ mutable_fields ->
  Forall2 (fun d d' => d' !! f = d !! f)
    (announcements_collection db)
    (announcements_collection (update_announcement id data u db).1)
  /\ List.length (announcements_collection (update_announcement id data u db).1)
     = List.length (announcements_collection db).
Proof.
  intros Hf.
  assert (H2 : Forall2 (fun d d' => d' !! f = d !! f)
                 (announcements_collection db)
                 (announcements_collection (update_announcement id data u db).1)).
  { destruct (update_announcement_changes id data u db)
      as [->|(oid & ud & _ & Hud & ->)].
    - apply Forall_Forall2_diag, Forall_forall. done.
    - simpl. apply update_one_untouched.
      eapply update_data_skipped; [done|]. by apply immutable_skipped. }
  split; [done|]. symmetry. by eapply Forall2_length.
Qed.

Lemma update_keeps_other_fields_witness :
  Forall2 (fun d d' : doc => d' !! "created_by" = d !! "created_by")
    (announcements_collection demo_db)
    (announcements_collection
       (update_announcement "64b0c0ffee00000000000001" demo_update "mchen" demo_db).1)
  /\ List.length
       (announcements_collection
          (update_announcement "64b0c0ffee00000000000001" demo_update "mchen" demo_db).1)
     = List.length (announcements_collection demo_db).
Proof.
  apply (update_keeps_other_fields "64b0c0ffee00000000000001" demo_update "mchen"
           demo_db "created_by").
  by_evaluation.
Defined.

(** What a successful update went through. *)
Lemma update_success_inv (id : string) (data : AnnouncementUpdate.t)
    (u : string) (db db' : Database) (body : doc) :
  update_announcement id data u db = (db', Return body) ->
  exists oid ud d pre post,
    staff_known u db = true
    /\ ObjectId_of_str id = Some oid
    /\ prepare_update (dict_exclude_unset data) ∅ = Return ud
    /\ ud <> ∅
    /\ announcements_collection db = pre ++ d :: post
    /\ existsb (id_is (VOid oid)) pre = false
    /\ id_is (VOid oid) d = true
    /\ ud ∪ d <> d
    /\ db' = with_announcements db (pre ++ (ud ∪ d) :: post)
    /\ body = {[ "message" := VStr "Announcement updated successfully" ]}.
Proof.
  rewrite update_announcement_unfold.
  destruct (staff_known u db); simpl; [|by inversion 1].
  destruct (ObjectId_of_str id) as [oid|]; [|by inversion 1].
  destruct (negb (existsb _ _)); [by inversion 1|].
  destruct (prepare_update _ _) as [ud| |] eqn:Hud; [|by inversion 1..].
  case_bool_decide as Hne; [by inversion 1|].
  pose proof (update_one_spec (id_is (VOid oid)) ud (announcements_collection db)) as Hspec.
  pose proof (update_one_modified (id_is (VOid oid)) ud (announcements_collection db)) as Hmod.
  destruct (update_one _ _ _) as [c res]. simpl in *.
  destruct (modified_count res =? 0) eqn:Hz; [by inversion 1|].
  intros [= <- <-].
  destruct (List.find _ _) as [d|] eqn:Hfind; [|lia].
  destruct Hspec as (pre & post & Hc & Hpre & ->).
  apply find_some in Hfind as [_ Hd].
  exists oid, ud, d, pre, post. repeat (split; [done|]).
  split; [|done]. case_decide; [lia|done].
Qed.

Lemma find_app_r {A} (f : A -> bool) (l1 l2 : list A) :
  existsb f l1 = false -> List.find f (l1 ++ l2) = List.find f l2.
Proof.
  induction l1 as [|x l1 IH]; simpl; [done|].
  destruct (f x); simpl; [done|apply IH].
Qed.

(** [$set] never carries an ["_id"]. *)
Lemma set_keeps_id (data : AnnouncementUpdate.t) (ud d : doc) :
  prepare_update (dict_exclude_unset data) ∅ = Return ud ->
  (ud ∪ d) !! "_id" = d !! "_id".
Proof.
  intros Hud. apply lookup_union_r. eapply update_data_skipped; [done|].
  apply immutable_skipped. by_evaluation.
Qed.

(** X7. A successful update answers with the message "Announcement
    updated successfully" and has changed exactly one record, the first
    one with the target identifier: every supplied non-null value is
    written into it, every skipped field is as before, and the record
    is not what it was; all other records are untouched. *)
Theorem update_success_effect (id : string) (data : AnnouncementUpdate.t)
    (u : string) (db db' : Database) (body : doc) :
  update_announcement id data u db = (db', Return body) ->
  body = {[ "message" := VStr "Announcement updated successfully" ]}
  /\ exists oid d d' pre post,
       ObjectId_of_str id = Some oid
       /\ announcements_collection db = pre ++ d :: post
       /\ existsb (id_is (VOid oid)) pre = false
       /\ d !! "_id" = Some (VOid oid)
       /\ announcements_collection db' = pre ++ d' :: post
       /\ d' <> d
       /\ (forall f v, (f, v) ∈ dict_exclude_unset data -> v <> VNone ->
                       d' !! f = Some v)
       /\ (forall f, skipped data f -> d' !! f = d !! f).
Proof.
  intros H.
  apply update_success_inv in H
    as (oid & ud & d & pre & post & _ & Hid & Hud & _ & Hc & Hpre & Hd & Hne & -> & ->).
  split; [done|].
  exists oid, d, (ud ∪ d), pre, post. repeat (split; [done|]).
  split; [by apply bool_decide_eq_true in Hd|].
  repeat (split; [done|]). split.
  - intros f v Hin Hv. apply lookup_union_Some_l.
    eapply prepare_update_applies; [done|apply dict_exclude_unset_NoDup|by left].
  - intros f Hs. apply lookup_union_r. by eapply update_data_skipped.
Qed.

Lemma update_success_effect_witness :
  ({[ "message" := VStr "Announcement updated successfully" ]} : doc)
  = {[ "message" := VStr "Announcement updated successfully" ]}
  /\ exists oid d d' pre post,
       ObjectId_of_str "64b0c0ffee00000000000002" = Some oid
       /\ announcements_collection demo_db = pre ++ d :: post
       /\ existsb (id_is (VOid oid)) pre = false
       /\ d !! "_id" = Some (VOid oid)
       /\ announcements_collection
            (update_announcement "64b0c0ffee00000000000002" demo_update "mchen"
               demo_db).1
          = pre ++ d' :: post
       /\ d' <> d
       /\ (forall f v, (f, v) ∈ dict_exclude_unset demo_update -> v <> VNone ->
                       d' !! f = Some v)
       /\ (forall f, skipped demo_update f -> d' !! f = d !! f).
Proof.
  apply (update_success_effect "64b0c0ffee00000000000002" demo_update "mchen" demo_db
           (update_announcement "64b0c0ffee00000000000002" demo_update "mchen"
              demo_db).1
           {[ "message" := VStr "Announcement updated successfully" ]}).
  by_evaluation.
Defined.

(** X8. Sending a successful update once more is answered with 500
    "Failed to update announcement": the record already has the supplied
    values, so the store reports nothing modified.  The database stays
    as the first update left it. *)
Theorem update_twice_fails (id : string) (data : AnnouncementUpdate.t)
    (u : string) (db db' : Database) (body : doc) :
  update_announcement id data u db = (db', Return body) ->
  update_announcement id data u db'
  = (db', HTTPException 500 "Failed to update announcement").
Proof.
  intros H.
  apply update_success_inv in H
    as (oid & ud & d & pre & post & Hk & Hid & Hud & Hne & Hc & Hpre & Hd & _ & -> & _).
  assert (Hd' : id_is (VOid oid) (ud ∪ d) = true).
  { unfold id_is in *. apply bool_decide_eq_true in Hd. apply bool_decide_eq_true.
    by rewrite (set_keeps_id data). }
  assert (Hfind : List.find (id_is (VOid oid)) (pre ++ (ud ∪ d) :: post)
                  = Some (ud ∪ d)).
  { rewrite find_app_r by done. simpl. by rewrite Hd'. }
  rewrite update_announcement_unfold. simpl.
  rewrite Hid. unfold staff_known in *. simpl. rewrite Hk. simpl.
  replace (existsb (id_is (VOid oid)) (pre ++ (ud ∪ d) :: post)) with true; last first.
  { symmetry. apply existsb_exists. exists (ud ∪ d). split; [|done].
    apply in_or_app. right. by left. }
  simpl. rewrite Hud, bool_decide_eq_false_2 by done.
  assert (Hmod : modified_count
            (update_one (id_is (VOid oid)) ud (pre ++ (ud ∪ d) :: post)).2 = 0).
  { rewrite update_one_modified, Hfind. rewrite decide_True; [done|].
    by rewrite (assoc_L (∪)), (idemp_L (∪)). }
  pose proof (update_one_unmodified _ _ _ Hmod) as Hsame.
  destruct (update_one _ _ _) as [c res]. simpl in *.
  by rewrite Hmod, Hsame.
Qed.

Lemma update_twice_fails_witness :
  update_announcement "64b0c0ffee00000000000002" demo_update "mchen"
    (update_announcement "64b0c0ffee00000000000002" demo_update "mchen" demo_db).1
  = ((update_announcement "64b0c0ffee00000000000002" demo_update "mchen" demo_db).1,
     HTTPException 500 "Failed to update announcement").
Proof.
  apply (update_twice_fails "64b0c0ffee00000000000002" demo_update "mchen" demo_db _
           {[ "message" := VStr "Announcement updated successfully" ]}).
  by_evaluation.
Defined.

(** ** The full listing *)

Lemma bson_ltb_asym (a b : value) : bson_ltb a b = true -> bson_ltb b a = false.
Proof.
  destruct a as [|x|x|[x]], b as [|y|y|[y]]; simpl; try done.
  - by destruct x, y.
  - rewrite !string_ltb_leb, negb_true_iff, negb_false_iff. intros H.
    destruct (String.leb_total x y); congruence.
  - rewrite !string_ltb_leb, negb_true_iff, negb_false_iff. intros H.
    destruct (String.leb_total x y); congruence.
Qed.

Lemma string_not_ltb_trans (x y z : string) :
  String.ltb x y = false -> String.ltb y z = false -> String.ltb x z = false.
Proof.
  rewrite !string_ltb_leb, !negb_false_iff. intros Hxy Hyz.
  by apply (string_leb_trans z y x).
Qed.

Lemma bson_geb_trans (a b c : value) :
  bson_geb a b = true -> bson_geb b c = true -> bson_geb a c = true.
Proof.
  unfold bson_geb. rewrite !negb_true_iff.
  destruct a as [|x|x|[x]], b as [|y|y|[y]], c as [|z|z|[z]]; simpl; try done.
  - by destruct x, y, z.
  - apply string_not_ltb_trans.
  - apply string_not_ltb_trans.
Qed.

Lemma find_sort_desc_sorted (field : string) (c : list doc) :
  StronglySorted (fun x y => bson_geb (dict_get x field) (dict_get y field) = true)
    (find_sort_desc field c).
Proof.
  eapply StronglySorted_weaken; last first.
  - apply (stable_sort_sorted
             (fun x y => bson_ltb (dict_get y field) (dict_get x field))).
    + intros a b. apply bson_ltb_asym.
    + unfold not_after. intros x y z Hxy Hyz.
      apply negb_true_iff.
      apply (bson_geb_trans (dict_get x field) (dict_get y field) (dict_get z field));
        by apply negb_true_iff.
  - intros x y Hxy. unfold not_after in Hxy. by apply negb_true_iff.
Qed.

(** X9. For a known staff member the full listing returns every record
    of the collection, whatever its dates and its flag, each with its
    identifier rendered as a string, and ordered by [created_at] from
    the latest to the earliest (a record without one comes last). *)
Theorem list_all_complete_and_ordered (u : string) (db : Database) :
  u <> "" -> staff_known u db = true ->
  Forall (fun d => is_Some (d !! "_id")) (announcements_collection db) ->
  exists out,
    get_all_announcements (Some u) db = Return out
    /\ out ≡ₚ rendered <$> announcements_collection db
    /\ (forall i j x y, (i < j)%nat -> out !! i = Some x -> out !! j = Some y ->
          bson_geb (dict_get x "created_at") (dict_get y "created_at") = true).
Proof.
  intros Hu Hk Hid. eexists. split; [by apply get_all_announcements_spec|].
  split; [by rewrite find_sort_desc_perm|].
  intros i j x y Hij Hx Hy.
  apply list_lookup_fmap_Some in Hx as (dx & -> & Hx).
  apply list_lookup_fmap_Some in Hy as (dy & -> & Hy).
  unfold dict_get. rewrite !rendered_lookup_ne by done.
  by apply (StronglySorted_lookup _ _ i j dx dy
              (find_sort_desc_sorted "created_at" (announcements_collection db))).
Qed.

Lemma list_all_complete_and_ordered_witness :
  exists out,
    get_all_announcements (Some "mchen") demo_db = Return out
    /\ out ≡ₚ rendered <$> announcements_collection demo_db
    /\ (forall i j x y, (i < j)%nat -> out !! i = Some x -> out !! j = Some y ->
          bson_geb (dict_get x "created_at") (dict_get y "created_at") = true).
Proof.
  apply (list_all_complete_and_ordered "mchen" demo_db).
  - discriminate.
  - reflexivity.
  - exact demo_db_has_ids.
Defined.

Example demo_all_titles :
  titles (get_all_announcements (Some "mchen") demo_db)
  = [VStr "Next term"; VStr "Science fair"; VStr "Hidden"; VStr "Exam week";
     VStr "Sports day"; VStr "Old news"].
Proof. by_evaluation. Qed.

(** ** Create, then ... *)

Lemma delete_one_last (query : doc -> bool) (c : list doc) (d : doc) :
  existsb query c = false -> query d = true ->
  delete_one query (c ++ [d]) = (c, {| deleted_count := 1 |}).
Proof.
  intros Hc Hd. induction c as [|x c IH]; simpl in *; [by rewrite Hd|].
  apply orb_false_iff in Hc as [Hx Hc]. rewrite Hx, (IH Hc). done.
Qed.

(** X10. Deleting a record right after creating it, under the identifier
    that the create returned, succeeds and gives back the database as it
    was before the create (for a generated identifier in canonical form,
    24 lower-case hexadecimal digits). *)
Theorem create_then_delete (a : AnnouncementCreate.t) (u now : string)
    (id : ObjectId) (db db' : Database) (body : doc) :
  create_announcement a u now id db = (db', Return body) ->
  ObjectId_of_str (py_str (VOid id)) = Some id ->
  exists sid,
    body !! "id" = Some (VStr sid)
    /\ delete_announcement sid u db'
       = (db, Return {[ "message" := VStr "Announcement deleted successfully" ]}).
Proof.
  intros Hc Hid.
  apply create_announcement_success in Hc as (Hk & _ & Hfresh & -> & ->).
  exists (py_str (VOid id)). split; [done|].
  rewrite delete_announcement_unfold, Hid.
  replace (staff_known u (with_announcements db _)) with true by done.
  simpl. rewrite delete_one_last; [|done|].
  - simpl. by destruct db.
  - unfold id_is, stored_doc. apply bool_decide_eq_true. by rewrite lookup_insert_eq.
Qed.

Lemma create_then_delete_witness :
  exists sid,
    ({[ "message" := VStr "Announcement created successfully";
        "id" := VStr "64b0c0ffee00000000000007" ]} : doc) !! "id" = Some (VStr sid)
    /\ delete_announcement sid "mrodriguez"
         (create_announcement demo_create "mrodriguez" "2026-11-04T09:00:00"
            demo_id demo_db).1
       = (demo_db, Return {[ "message" := VStr "Announcement deleted successfully" ]}).
Proof.
  apply (create_then_delete demo_create "mrodriguez" "2026-11-04T09:00:00" demo_id
           demo_db).
  - by_evaluation.
  - reflexivity.
Defined.

Lemma displayable_stored (today : string) (a : AnnouncementCreate.t) (u now : string)
    (id : ObjectId) :
  displayable today (stored_doc a u now id) = request_displayable today a.
Proof.
  unfold displayable, started, request_displayable, stored_doc, announcement_doc.
  simplify_map_eq.
  destruct (AnnouncementCreate.is_active a) as [[]|],
    (AnnouncementCreate.start_date a); simpl; try done.
Qed.

Lemma displayable_rendered (today : string) (d : doc) :
  displayable today (rendered d) = displayable today d.
Proof. unfold displayable, started. by rewrite !rendered_lookup_ne by done. Qed.

(** X11. Right after a successful create, the active listing shows the
    new record exactly when the request had [is_active] true, an
    [end_date] not before today and a [start_date] left out or not after
    today; in particular a request with [is_active] given as [null] or
    false is stored but not shown. *)
Theorem created_record_displayed (today : string) (a : AnnouncementCreate.t)
    (u now : string) (id : ObjectId) (db db' : Database) (body : doc) :
  create_announcement a u now id db = (db', Return body) ->
  Forall (fun d => listable d = true) (announcements_collection db) ->
  exists out,
    get_active_announcements today db' = Return out
    /\ (rendered (stored_doc a u now id) ∈ out
        <-> request_displayable today a = true).
Proof.
  intros Hc Hl.
  assert (Hl' : Forall (fun d => listable d = true) (announcements_collection db')).
  { pose proof (listable_create a u now id db Hl) as H. by rewrite Hc in H. }
  apply create_announcement_success in Hc as (_ & _ & _ & -> & _).
  eexists. split; [by apply get_active_announcements_spec|].
  rewrite stable_sort_perm, list_elem_of_fmap. simpl. split.
  - intros (d0 & Heq & Hin). apply list_elem_of_In, filter_In in Hin as [_ Hd0].
    by rewrite <- (displayable_stored today a u now id),
      <- displayable_rendered, Heq, displayable_rendered.
  - intros Hreq. exists (stored_doc a u now id). split; [done|].
    apply list_elem_of_In, filter_In. split.
    + apply in_or_app. right. by left.
    + by rewrite displayable_stored.
Qed.

Lemma created_record_displayed_witness :
  exists out,
    get_active_announcements "2026-11-04"
      (create_announcement demo_create "mrodriguez" "2026-11-04T09:00:00"
         demo_id demo_db).1
    = Return out
    /\ (rendered (stored_doc demo_create "mrodriguez" "2026-11-04T09:00:00" demo_id)
          ∈ out
        <-> request_displayable "2026-11-04" demo_create = true).
Proof.
  apply (created_record_displayed "2026-11-04" demo_create "mrodriguez"
           "2026-11-04T09:00:00" demo_id demo_db _
           {[ "message" := VStr "Announcement created successfully";
              "id" := VStr "64b0c0ffee00000000000007" ]}).
  - by_evaluation.
  - exact demo_db_listable.
Defined.

(** X12. What create answers depends on the staff identifier, the two
    dates and the generated identifier only: two requests with the same
    dates get the same answer whatever their titles, messages,
    priorities and flags are, so no title, message or priority is ever
    refused. *)
Theorem create_checks_dates_only (a a' : AnnouncementCreate.t) (u now : string)
    (id : ObjectId) (db : Database) :
  AnnouncementCreate.start_date a = AnnouncementCreate.start_date a' ->
  AnnouncementCreate.end_date a = AnnouncementCreate.end_date a' ->
  (create_announcement a u now id db).2 = (create_announcement a' u now id db).2.
Proof.
  intros Hs He. rewrite !create_announcement_unfold.
  assert (dates_parse a = dates_parse a') as ->.
  { unfold dates_parse. by rewrite Hs, He. }
  destruct (negb (staff_known u db)); [done|].
  destruct (negb (dates_parse a')); [done|].
  by destruct (existsb _ _).
Qed.

Lemma create_checks_dates_only_witness :
  (create_announcement demo_create "mrodriguez" "2026-11-04T09:00:00" demo_id demo_db).2
  = (create_announcement
       {| AnnouncementCreate.title := "";
          AnnouncementCreate.message := "";
          AnnouncementCreate.priority := Some "whenever";
          AnnouncementCreate.start_date := Some "2026-11-01";
          AnnouncementCreate.end_date := "2026-12-20";
          AnnouncementCreate.is_active := None |}
       "mrodriguez" "2026-11-04T09:00:00" demo_id demo_db).2.
Proof.
  apply (create_checks_dates_only demo_create _ "mrodriguez" "2026-11-04T09:00:00"
           demo_id demo_db); reflexivity.
Defined.

(** ** Delete, then list *)

Lemma py_str_oid_inj (o1 o2 : ObjectId) :
  py_str (VOid o1) = py_str (VOid o2) -> o1 = o2.
Proof. destruct o1, o2. simpl. by intros ->. Qed.

(** X13. After a successful delete, in a collection whose identifiers
    are distinct [ObjectId]s, the full listing holds one record less and
    none that carries the deleted identifier. *)
Theorem deleted_record_not_listed (sid : string) (u : string)
    (db db' : Database) (body : doc) (viewer : string) :
  delete_announcement sid u db = (db', Return body) ->
  unique_ids (announcements_collection db) ->
  Forall (fun d => has_object_id d = true) (announcements_collection db) ->
  viewer <> "" -> staff_known viewer db = true ->
  exists oid out,
    ObjectId_of_str sid = Some oid
    /\ get_all_announcements (Some viewer) db' = Return out
    /\ (forall r, r ∈ out -> r !! "_id" <> Some (VStr (py_str (VOid oid))))
    /\ S (List.length out) = List.length (announcements_collection db).
Proof.
  intros Hdel Huniq Hoid Hv Hk.
  rewrite delete_announcement_unfold in Hdel.
  destruct (negb (staff_known u db)); [by inversion Hdel|].
  destruct (ObjectId_of_str sid) as [oid|]; [|by inversion Hdel].
  pose proof (delete_one_spec (id_is (VOid oid)) (announcements_collection db)) as Hspec.
  pose proof (deleted_id_gone (VOid oid) (announcements_collection db) Huniq) as Hgone.
  pose proof (delete_one_sublist (id_is (VOid oid)) (announcements_collection db)) as Hsub.
  destruct (List.find _ _) as [d|];
    [|rewrite Hspec in Hdel; by inversion Hdel].
  destruct Hspec as (pre & post & Hc & _ & Hd1).
  rewrite Hd1 in Hdel, Hgone, Hsub. simpl in *.
  injection Hdel as <- _.
  assert (Hoid' : Forall (fun d => has_object_id d = true) (pre ++ post)).
  { rewrite Forall_forall in Hoid |- *. intros x Hx. apply Hoid.
    by eapply elem_of_sublist. }
  exists oid. eexists. split; [done|]. split.
  - apply get_all_announcements_spec; [done|done|]. simpl.
    eapply Forall_impl; [exact Hoid'|]. intros x Hx. unfold has_object_id in Hx.
    destruct (x !! "_id") as [v|]; [eauto|done].
  - simpl. split.
    + intros r Hr. apply list_elem_of_fmap in Hr as (d0 & -> & Hd0).
      rewrite find_sort_desc_perm in Hd0.
      rewrite Forall_forall in Hoid'. specialize (Hoid' d0 Hd0).
      unfold has_object_id in Hoid'. unfold rendered, dict_get.
      rewrite lookup_insert_eq.
      destruct (d0 !! "_id") as [[| | |o]|] eqn:Hid0; try done. simpl.
      intros [= Heq%py_str_oid_inj]. subst o.
      assert (existsb (id_is (VOid oid)) (pre ++ post) = true); [|congruence].
      apply existsb_exists. exists d0. split; [by apply list_elem_of_In|].
      by apply bool_decide_eq_true.
    + rewrite length_fmap, (Permutation_length (find_sort_desc_perm _ _)), Hc.
      rewrite !length_app. simpl. lia.
Qed.

Lemma demo_db_unique_ids : unique_ids (announcements_collection demo_db).
Proof. by_evaluation. Defined.

Lemma deleted_record_not_listed_witness :
  exists oid out,
    ObjectId_of_str "64b0c0ffee00000000000003" = Some oid
    /\ get_all_announcements (Some "mchen")
         (delete_announcement "64b0c0ffee00000000000003" "mrodriguez" demo_db).1
       = Return out
    /\ (forall r, r ∈ out -> r !! "_id" <> Some (VStr (py_str (VOid oid))))
    /\ S (List.length out) = List.length (announcements_collection demo_db).
Proof.
  apply (deleted_record_not_listed "64b0c0ffee00000000000003" "mrodriguez" demo_db _
           {[ "message" := VStr "Announcement deleted successfully" ]}).
  - by_evaluation.
  - exact demo_db_unique_ids.
  - by_evaluation.
  - discriminate.
  - reflexivity.
Defined.

(** ** Ties in the active listing *)

Lemma tie_db_listable :
  Forall (fun d => listable d = true) (announcements_collection tie_db).
Proof. by_evaluation. Defined.

Example tie_db_active_titles :
  titles (get_active_announcements "2026-11-04" tie_db)
  = [VStr "Fire drill"; VStr "Book fair"; VStr "Bus strike"; VStr "Art show"].
Proof. by_evaluation. Qed.

Lemma active_listing_stable_witness :
  let same_key d :=
    bool_decide (priority_class d = 1%nat /\ created_at_of d = "2026-10-01T08:00:00") in
  exists out,
    get_active_announcements "2026-11-04" tie_db = Return out
    /\ List.filter same_key out
       = List.filter same_key
           (rendered <$> List.filter (displayable "2026-11-04")
                           (announcements_collection tie_db))
    /\ map (fun d => dict_get d "title") (List.filter same_key out)
       = [VStr "Bus strike"; VStr "Art show"].
Proof.
  cbv zeta.
  destruct (get_active_announcements "2026-11-04" tie_db) as [out| |] eqn:Hout;
    [|exfalso; revert Hout; by_evaluation..].
  exists out. split; [done|].
  pose proof (active_listing_stable "2026-11-04" tie_db 1 "2026-10-01T08:00:00" out
                tie_db_listable Hout) as Hstable.
  cbv zeta in Hstable. split; [exact Hstable|].
  rewrite Hstable. by_evaluation.
Defined.

(** ** Update, then list *)

Lemma unique_ids_middle (v : option value) (pre post : list doc) (d : doc) :
  unique_ids (pre ++ d :: post) -> d !! "_id" = v ->
  forall x, x ∈ pre ++ post -> x !! "_id" <> v.
Proof.
  unfold unique_ids. rewrite fmap_app, fmap_cons. intros Hu Hd x Hx Hxv.
  apply NoDup_app in Hu as (_ & Hpre & Hu). apply NoDup_cons in Hu as [Hpost _].
  apply elem_of_app in Hx as [Hx|Hx].
  - apply (Hpre (d !! "_id")).
    + apply list_elem_of_fmap. exists x. split; [congruence|done].
    + by left.
  - apply Hpost. apply list_elem_of_fmap. exists x. split; [congruence|done].
Qed.

(** X15. After a successful update that sets [is_active] to false, in a
    collection whose identifiers are distinct [ObjectId]s, the active
    listing shows no record with the target identifier, whatever the
    dates are. *)
Theorem deactivated_record_hidden (today : string) (id : string)
    (data : AnnouncementUpdate.t) (u : string) (db db' : Database) (body : doc) :
  update_announcement id data u db = (db', Return body) ->
  AnnouncementUpdate.is_active data = Some (Some false) ->
  unique_ids (announcements_collection db) ->
  Forall (fun d => has_object_id d = true) (announcements_collection db) ->
  Forall (fun d => listable d = true) (announcements_collection db) ->
  exists oid out,
    ObjectId_of_str id = Some oid
    /\ get_active_announcements today db' = Return out
    /\ forall r, r ∈ out -> r !! "_id" <> Some (VStr (py_str (VOid oid))).
Proof.
  intros Hup Hflag Huniq Hoid Hl.
  assert (Hl' : Forall (fun d => listable d = true) (announcements_collection db')).
  { pose proof (listable_update id data u db Hl) as H. by rewrite Hup in H. }
  apply update_success_inv in Hup
    as (oid & ud & d & pre & post & _ & Hid & Hud & _ & Hc & _ & Hd & _ & -> & _).
  apply bool_decide_eq_true in Hd.
  exists oid. eexists. split; [done|].
  split; [by apply get_active_announcements_spec|].
  intros r Hr. rewrite stable_sort_perm in Hr.
  apply list_elem_of_fmap in Hr as (d0 & -> & Hd0).
  apply list_elem_of_In, filter_In in Hd0 as [Hin Hdisp]. simpl in Hin.
  apply list_elem_of_In, elem_of_app in Hin.
  rewrite Hc in Huniq, Hoid.
  assert (Hnew : displayable today (ud ∪ d) = false).
  { unfold displayable.
    assert ((ud ∪ d) !! "is_active" = Some (VBool false)) as ->; [|done].
    apply lookup_union_Some_l.
    eapply prepare_update_applies; [done|apply dict_exclude_unset_NoDup|].
    left. split; [|done]. apply dict_exclude_unset_elem.
    do 5 right. split; [done|]. by exists (Some false). }
  assert (Hother : d0 ∈ pre ++ post).
  { destruct Hin as [Hin|Hin]; [apply elem_of_app; by left|].
    apply elem_of_cons in Hin as [->|Hin]; [congruence|].
    apply elem_of_app. by right. }
  pose proof (unique_ids_middle _ pre post d Huniq Hd d0 Hother) as Hne.
  assert (Hobj : has_object_id d0 = true).
  { rewrite Forall_forall in Hoid. apply Hoid.
    apply elem_of_app in Hother as [?|?]; apply elem_of_app; [by left|right; by right]. }
  unfold has_object_id in Hobj. unfold rendered, dict_get. rewrite lookup_insert_eq.
  destruct (d0 !! "_id") as [[| | |o]|] eqn:Hid0; try done. simpl.
  intros [= Heq%py_str_oid_inj]. by subst o.
Qed.

Lemma demo_db_object_ids :
  Forall (fun d => has_object_id d = true) (announcements_collection demo_db).
Proof. by_evaluation. Defined.

Lemma deactivated_record_hidden_witness :
  exists oid out,
    ObjectId_of_str "64b0c0ffee00000000000002" = Some oid
    /\ get_active_announcements "2026-11-04"
         (update_announcement "64b0c0ffee00000000000002" deactivate "mchen" demo_db).1
       = Return out
    /\ forall r, r ∈ out -> r !! "_id" <> Some (VStr (py_str (VOid oid))).
Proof.
  apply (deactivated_record_hidden "2026-11-04" "64b0c0ffee00000000000002" deactivate
           "mchen" demo_db _
           {[ "message" := VStr "Announcement updated successfully" ]}).
  - by_evaluation.
  - reflexivity.
  - exact demo_db_unique_ids.
  - exact demo_db_object_ids.
  - exact demo_db_listable.
Defined.

Example demo_deactivated_titles :
  titles (get_active_announcements "2026-11-04"
            (update_announcement "64b0c0ffee00000000000002" deactivate "mchen"
               demo_db).1)
  = [VStr "Science fair"; VStr "Sports day"].
Proof. by_evaluation. Qed.

(** ** Dates written with digits of other scripts *)

(** The handlers take a date by what [strptime] takes: a year in
    Arabic-Indic digits passes the check of create and of update, and
    the record is stored with the string as sent. *)
Example create_accepts_arabic_digits :
  let request := with_dates demo_create None "٢٠٢٦-12-20" in
  let result := create_announcement request "mrodriguez" "2026-11-04T09:00:00"
                  demo_id fresh_db in
  status_of result.2 = Some 200
  /\ Exists (fun d : doc => d !! "end_date" = Some (VStr "٢٠٢٦-12-20"))
       (announcements_collection result.1).
Proof. by_evaluation. Qed.

Example update_accepts_arabic_digits :
  status_of
    (update_announcement "64b0c0ffee00000000000001"
       {| AnnouncementUpdate.title := None;
          AnnouncementUpdate.message := None;
          AnnouncementUpdate.priority := None;
          AnnouncementUpdate.start_date := Some (Some "٢٠٢٦-11-01");
          AnnouncementUpdate.end_date := None;
          AnnouncementUpdate.is_active := None |}
       "mrodriguez" demo_db).2
  = Some 200.
Proof. by_evaluation. Qed.
